(** * Timetable: the schedule rendering and query engine of [main.py]

    A shallow embedding of [src/timetable/main.py] and the properties of its
    day view, timeline layout, week grid, next-activity finder and cache
    rewrite.

    Layout of the development:
    - [Py]: the part of the Python runtime the program relies on
      ([datetime.time], [datetime.datetime], [datetime.timedelta],
      [strftime], [calendar.day_name]);
    - the data model ([Location], [Activity], [Course]);
    - a writer-with-exceptions monad recording what the program prints,
      draws and writes, and the two dictionaries of the program
      ([OrderedDict], [defaultdict]);
    - the functions of [main.py], in source order;
    - the collaborators of [main.py] as the spec describes them, and
      concrete timetables to run the program on;
    - the properties, then the program run on the concrete timetables. *)

From Stdlib Require Import ZArith List String Ascii Lia Bool.
From Stdlib Require Import Sorted Permutation.
From stdpp Require Import base decidable countable gmap strings list pretty.

Local Open Scope string_scope.
Local Open Scope list_scope.
Local Open Scope Z_scope.

(** ** The Python runtime used by [main.py] *)

Module Py.

(** *** Exceptions *)

Inductive exn : Type :=
  | TypeError
  | ValueError
  | OverflowError
  | StopIteration
  | Exception (class_name : string)
      (* any other exception, by the name of its class *).

(** *** Formatting of integers *)

Definition digit (d : Z) : ascii := ascii_of_nat (48 + Z.to_nat d).

(** ["%02d" % n] for [0 <= n < 100]. *)
Definition pad2 (n : Z) : string :=
  String (digit (n / 10)) (String (digit (n mod 10)) EmptyString).

(** ["%04d" % n] for [0 <= n < 10000]. *)
Definition pad4 (n : Z) : string :=
  pad2 (n / 100) +:+ pad2 (n mod 100).

(** ["%06d" % n] for [0 <= n < 1000000]. *)
Definition pad6 (n : Z) : string :=
  pad2 (n / 10000) +:+ pad4 (n mod 10000).

(** ["%d" % n]. *)
Definition dec (n : Z) : string := pretty n.

(** A Python [str] is a sequence of code points; it is held here by its
    UTF-8 encoding, one [ascii] per byte.  A byte [10xxxxxx] continues the
    character that an earlier byte started. *)
Definition is_continuation (c : ascii) : bool :=
  let n := Z.of_nat (nat_of_ascii c) in (128 <=? n) && (n <? 192).

(** The number of code points of a string: the bytes that start a
    character. *)
Fixpoint code_points (s : string) : nat :=
  match s with
  | EmptyString => 0%nat
  | String c rest =>
      if is_continuation c then code_points rest else S (code_points rest)
  end.

(** [len(s)]: the number of code points. *)
Definition len (s : string) : Z := Z.of_nat (code_points s).

(** [sep.join(l)]. *)
Fixpoint join (sep : string) (l : list string) : string :=
  match l with
  | [] => ""
  | [s] => s
  | s :: rest => s +:+ sep +:+ join sep rest
  end.

(** [range(n)]: empty when [n <= 0]. *)
Definition range (n : Z) : list Z := seqZ 0 n.

(** [s.split(sep)] for a one-character separator; used to count the lines
    of a text block. *)
Fixpoint split_on (sep : ascii) (s : string) : list string :=
  match s with
  | EmptyString => [""]
  | String c rest =>
      if Ascii.eqb c sep then "" :: split_on sep rest
      else match split_on sep rest with
           | [] => [String c ""]
           | w :: ws => String c w :: ws
           end
  end.

Definition newline : ascii := ascii_of_nat 10.
Definition nl : string := String newline "".

Definition lines (s : string) : list string := split_on newline s.

(** *** [datetime.time]

    A naive time of day.  The constructor of [datetime.time] only builds
    values with [0 <= hour < 24], [0 <= minute < 60], [0 <= second < 60] and
    [0 <= microsecond < 1000000]: this is [time_valid]. *)

Record time : Type := mk_time {
  hour : Z;
  minute : Z;
  second : Z;
  microsecond : Z
}.

Definition time_valid (t : time) : Prop :=
  0 <= hour t < 24 /\ 0 <= minute t < 60 /\ 0 <= second t < 60
  /\ 0 <= microsecond t < 1000000.

#[global] Instance time_eq_dec : EqDecision time.
Proof. solve_decision. Defined.

#[global] Instance time_countable : Countable time.
Proof.
  apply (inj_countable'
           (fun t => (hour t, minute t, second t, microsecond t))
           (fun p => match p with (h, m, s, u) => mk_time h m s u end)).
  intros []; reflexivity.
Defined.

(** Comparison of two times: Python compares the tuples
    [(hour, minute, second, microsecond)]. *)
Definition time_ltb (a b : time) : bool :=
  (hour a <? hour b)
  || ((hour a =? hour b)
      && ((minute a <? minute b)
          || ((minute a =? minute b)
              && ((second a <? second b)
                  || ((second a =? second b)
                      && (microsecond a <? microsecond b)))))).

(** [a > b] on times. *)
Definition time_gtb (a b : time) : bool := time_ltb b a.

Definition time_leb (a b : time) : bool := negb (time_ltb b a).

(** [t.replace(minute=0, second=0)]: the microsecond is kept. *)
Definition time_replace_minute_second (t : time) (m s : Z) : time :=
  mk_time (hour t) m s (microsecond t).

(** [t.strftime('%H:%M')], also [f'{t:%H:%M}']. *)
Definition strftime_HM (t : time) : string :=
  pad2 (hour t) +:+ ":" +:+ pad2 (minute t).

(** *** [datetime.timedelta]

    A duration, kept as its total number of microseconds; [days], [seconds]
    and [microseconds] are the normalised fields Python stores
    ([0 <= seconds < 86400], [0 <= microseconds < 1000000]). *)

Record timedelta : Type := mk_timedelta { total_microseconds : Z }.

Definition td_hours (h : Z) : timedelta := mk_timedelta (h * 3600 * 1000000).
Definition td_days (d : Z) : timedelta := mk_timedelta (d * 86400 * 1000000).

Definition td_days_of (d : timedelta) : Z :=
  total_microseconds d / (86400 * 1000000).
Definition td_seconds_of (d : timedelta) : Z :=
  (total_microseconds d / 1000000) mod 86400.
Definition td_microseconds_of (d : timedelta) : Z :=
  total_microseconds d mod 1000000.

(** [str(d)], as [timedelta.__str__] builds it. *)
Definition timedelta_str (d : timedelta) : string :=
  let mm := td_seconds_of d / 60 in
  let ss := td_seconds_of d mod 60 in
  let hh := mm / 60 in
  let mm := mm mod 60 in
  let s := dec hh +:+ ":" +:+ pad2 mm +:+ ":" +:+ pad2 ss in
  let s :=
    if td_days_of d =? 0 then s
    else dec (td_days_of d) +:+ " day"
         +:+ (if Z.abs (td_days_of d) =? 1 then "" else "s") +:+ ", " +:+ s in
  if td_microseconds_of d =? 0 then s
  else s +:+ "." +:+ pad6 (td_microseconds_of d).

(** *** [datetime.datetime]

    A naive date and time.  The date is kept by its proleptic Gregorian
    ordinal ([date.toordinal()], day 1 is 0001-01-01, a Monday); year, month
    and day are recovered from it when a date is formatted. *)

Record datetime : Type := mk_datetime {
  toordinal : Z;
  time_of : time    (* [dt.time()] *)
}.

Definition MAXORDINAL : Z := 3652059.  (* 9999-12-31 *)

Definition datetime_valid (d : datetime) : Prop :=
  1 <= toordinal d <= MAXORDINAL /\ time_valid (time_of d).

(** [date.weekday()]: Monday is 0. *)
Definition weekday (d : datetime) : Z := (toordinal d + 6) mod 7.

(** [dt.replace(hour=h, minute=m, second=s)]. *)
Definition replace_hms (d : datetime) (h m s : Z) : datetime :=
  mk_datetime (toordinal d) (mk_time h m s (microsecond (time_of d))).

(** [dt.replace(hour=h, minute=m)]: second and microsecond are kept. *)
Definition replace_hm (d : datetime) (h m : Z) : datetime :=
  mk_datetime (toordinal d)
    (mk_time h m (second (time_of d)) (microsecond (time_of d))).

Definition seconds_of_day (t : time) : Z :=
  second t + minute t * 60 + hour t * 3600.

(** [a - b] on datetimes. *)
Definition datetime_sub (a b : datetime) : timedelta :=
  mk_timedelta
    (((toordinal a - toordinal b) * 86400
      + (seconds_of_day (time_of a) - seconds_of_day (time_of b))) * 1000000
     + (microsecond (time_of a) - microsecond (time_of b))).

(** [d + delta] on a datetime: [OverflowError] when the date leaves
    [1 .. MAXORDINAL]. *)
Definition datetime_add (d : datetime) (delta : timedelta)
  : exn + datetime :=
  let total :=
    (toordinal d * 86400 + seconds_of_day (time_of d)) * 1000000
    + microsecond (time_of d) + total_microseconds delta in
  let r := mk_timedelta total in
  let days := td_days_of r in
  let secs := td_seconds_of r in
  if (0 <? days) && (days <=? MAXORDINAL) then
    inr (mk_datetime days
           (mk_time (secs / 3600) ((secs mod 3600) / 60) ((secs mod 3600) mod 60)
              (td_microseconds_of r)))
  else inl OverflowError.

(** *** Calendar fields of a date, as CPython's [_ord2ymd] computes them *)

Definition DI400Y : Z := 146097.
Definition DI100Y : Z := 36524.
Definition DI4Y : Z := 1461.

Definition DAYS_IN_MONTH : list Z :=
  [0; 31; 28; 31; 30; 31; 30; 31; 31; 30; 31; 30; 31].
Definition DAYS_BEFORE_MONTH : list Z :=
  [0; 0; 31; 59; 90; 120; 151; 181; 212; 243; 273; 304; 334].

Definition tbl (t : list Z) (i : Z) : Z := nth (Z.to_nat i) t 0.

Definition ord2ymd (n : Z) : Z * Z * Z :=
  let n := n - 1 in
  let n400 := n / DI400Y in
  let n := n mod DI400Y in
  let year := n400 * 400 + 1 in
  let n100 := n / DI100Y in
  let n := n mod DI100Y in
  let n4 := n / DI4Y in
  let n := n mod DI4Y in
  let n1 := n / 365 in
  let n := n mod 365 in
  let year := year + n100 * 100 + n4 * 4 + n1 in
  if (n1 =? 4) || (n100 =? 4) then (year - 1, 12, 31)
  else
    let leapyear := (n1 =? 3) && (negb (n4 =? 24) || (n100 =? 3)) in
    let month := Z.shiftr (n + 50) 5 in
    let preceding :=
      tbl DAYS_BEFORE_MONTH month
      + (if (2 <? month) && leapyear then 1 else 0) in
    if n <? preceding then
      let month := month - 1 in
      let preceding :=
        preceding
        - (tbl DAYS_IN_MONTH month
           + (if (month =? 2) && leapyear then 1 else 0)) in
      (year, month, n - preceding + 1)
    else (year, month, n - preceding + 1).

Definition year_of (d : datetime) : Z := fst (fst (ord2ymd (toordinal d))).
Definition month_of (d : datetime) : Z := snd (fst (ord2ymd (toordinal d))).
Definition day_of (d : datetime) : Z := snd (ord2ymd (toordinal d)).

Definition days_before_year (y : Z) : Z :=
  let y := y - 1 in y * 365 + y / 4 - y / 100 + y / 400.

(** [d.date().isoformat()]. *)
Definition isoformat_date (d : datetime) : string :=
  pad4 (year_of d) +:+ "-" +:+ pad2 (month_of d) +:+ "-" +:+ pad2 (day_of d).

(** The [%U] directive: week of the year, Sunday being the first day of
    the week, days before the first Sunday in week 0. *)
Definition strftime_U (d : datetime) : string :=
  let yday := toordinal d - 1 - days_before_year (year_of d) in
  let wday := (weekday d + 1) mod 7 in
  pad2 ((yday + 7 - wday) / 7).

(** The [%Y] directive (glibc: the year in decimal, not padded). *)
Definition strftime_Y (d : datetime) : string := dec (year_of d).

(** [f'{d:week %U of %Y}']. *)
Definition format_week_of_year (d : datetime) : string :=
  "week " +:+ strftime_U d +:+ " of " +:+ strftime_Y d.

(** [calendar.day_name] in the C locale; [calendar.MONDAY = 0],
    [calendar.SATURDAY = 5]. *)
Definition day_name : list string :=
  ["Monday"; "Tuesday"; "Wednesday"; "Thursday"; "Friday"; "Saturday";
   "Sunday"].
Definition MONDAY : Z := 0.
Definition SATURDAY : Z := 5.

#[global] Arguments pad2 : simpl never.
#[global] Arguments dec : simpl never.
#[global] Arguments strftime_HM : simpl never.
#[global] Arguments timedelta_str : simpl never.
#[global] Arguments datetime_add : simpl never.
#[global] Arguments ord2ymd : simpl never.
#[global] Arguments isoformat_date : simpl never.
#[global] Arguments format_week_of_year : simpl never.

End Py.

Import Py.

(** [t + delta] on a [datetime.time]: the class defines no addition, the
    interpreter raises [TypeError] (only [date] and [datetime] accept a
    [timedelta]). *)
Definition time_add (t : time) (delta : timedelta) : exn + time :=
  inl TypeError.

(** ** The data model

    Modelled from the spec: the classes [Location], [Activity] and [Course]
    of the [timetable] module, with the attributes [main.py] reads.
    [start] and [end] are times of day ([datetime.time]): [show_next]
    compares [activity.start] with [now.time()], which is defined for two
    times only.  [end_] stands for the attribute [end]. *)

Record Location : Type := mk_Location {
  place : string;
  valid_from : Z;   (* first day of the validity window, as an ordinal *)
  valid_to : Z      (* last day of the validity window, as an ordinal *)
}.

Record Activity : Type := mk_Activity {
  name : string;
  day : Z;          (* weekday, 0 = Monday *)
  start : time;
  end_ : time;
  locations : list Location
}.

Record Course : Type := mk_Course {
  title : string;
  activities : list Activity
}.

(** The validated command line ([COMMAND_SCHEMA]). *)
Record Args : Type := mk_Args {
  arg_on : option datetime;     (* --on *)
  arg_drop_cache : bool;        (* --drop-cache *)
  arg_time : bool;              (* --time *)
  arg_next : bool;              (* next *)
  arg_show : bool;              (* show *)
  arg_week : bool;              (* week *)
  arg_verbose : bool;           (* --verbose *)
  arg_timeline : bool           (* --timeline *)
}.

(** [arguments[cmd]] for the three command names. *)
Definition arg_command (arguments : Args) (cmd : string) : bool :=
  if String.eqb cmd "week" then arg_week arguments
  else if String.eqb cmd "show" then arg_show arguments
  else if String.eqb cmd "next" then arg_next arguments
  else false.

(** ** What a run does: prints, drawing calls, the cache write *)

Inductive effect : Type :=
  | Print (s : string)
      (* [print(s)] *)
  | DrawTimeline (x y box_width box_height : Z)
                 (mapping : list (string * list string))
      (* [draw.timeline(canvas, x, y, box_width, box_height, mapping)] *)
  | DrawTable (x y : Z) (table : list (list string))
      (* [draw.table(canvas, x, y, table)] *)
  | PrintFrame
      (* [print(canvas.frame())] *)
  | PickleDump (courses : list Course)
      (* [pickle.dump(courses, out)] on [config_path / 'data'] *).

(** A computation: the effects performed so far and either the exception
    that stopped it or its value. *)
Definition M (A : Type) : Type := list effect * (exn + A).

Definition ret {A} (a : A) : M A := ([], inr a).
Definition raise {A} (e : exn) : M A := ([], inl e).
Definition emit (e : effect) : M unit := ([e], inr tt).
Definition lift {A} (r : exn + A) : M A := ([], r).

Definition bind {A B} (m : M A) (k : A -> M B) : M B :=
  match m with
  | (t, inl e) => (t, inl e)
  | (t, inr a) => let (t', r) := k a in (t ++ t', r)
  end.

Notation "x <- m ;; k" := (bind m (fun x => k))
  (at level 100, m at next level, right associativity).
Notation "m ;;; k" := (bind m (fun _ => k))
  (at level 100, right associativity).

#[global] Arguments bind : simpl never.
#[global] Arguments ret : simpl never.
#[global] Arguments raise : simpl never.
#[global] Arguments emit : simpl never.
#[global] Arguments lift : simpl never.

Definition trace {A} (m : M A) : list effect := fst m.
Definition outcome {A} (m : M A) : exn + A := snd m.

(** The run ended without an exception. *)
Definition completes {A} (m : M A) : Prop := exists a, outcome m = inr a.

(** [for x in l: body(acc, x)], for a loop that threads [acc]. *)
Fixpoint for_each {A S} (l : list A) (body : S -> A -> M S) (acc : S) : M S :=
  match l with
  | [] => ret acc
  | x :: rest => acc' <- body acc x ;; for_each rest body acc'
  end.

(** [[f(x) for x in l]] for an [f] that can raise. *)
Fixpoint map_M {A B} (f : A -> M B) (l : list A) : M (list B) :=
  match l with
  | [] => ret []
  | x :: rest => y <- f x ;; ys <- map_M f rest ;; ret (y :: ys)
  end.

Definition print (s : string) : M unit := emit (Print s).

(** [max(seq)] on integers: [ValueError] on an empty sequence. *)
Definition py_max (l : list Z) : M Z :=
  match l with
  | [] => raise ValueError
  | x :: rest => ret (fold_left Z.max rest x)
  end.

(** [min(seq, key=key)] with time keys: the first least element. *)
Definition py_min_by {A} (key : A -> time) (l : list A) : M A :=
  match l with
  | [] => raise ValueError
  | x :: rest =>
      ret (fold_left
             (fun best y => if time_ltb (key y) (key best) then y else best)
             rest x)
  end.

(** [max(seq, key=key)] with time keys: the first greatest element. *)
Definition py_max_by {A} (key : A -> time) (l : list A) : M A :=
  match l with
  | [] => raise ValueError
  | x :: rest =>
      ret (fold_left
             (fun best y => if time_ltb (key best) (key y) then y else best)
             rest x)
  end.

(** *** [OrderedDict] with string keys: an association list in insertion
    order *)

(** [mapping.get(key, default)]. *)
Fixpoint od_get {V} (mapping : list (string * V)) (key : string) (default : V)
  : V :=
  match mapping with
  | [] => default
  | (k, v) :: rest => if String.eqb k key then v else od_get rest key default
  end.

(** [mapping[key] = v]: a key already present keeps its position. *)
Fixpoint od_set {V} (mapping : list (string * V)) (key : string) (v : V)
  : list (string * V) :=
  match mapping with
  | [] => [(key, v)]
  | (k, w) :: rest =>
      if String.eqb k key then (k, v) :: rest
      else (k, w) :: od_set rest key v
  end.

(** *** [defaultdict(list)] keyed by [(weekday, time)] *)

Abbreviation cells := (gmap (Z * time) (list string)).

(** The list stored under [key], the empty list when there is none. *)
Definition dd_lookup (d : cells) (key : Z * time) : list string :=
  default [] (d !! key).

(** [d[key]]: a missing key is inserted with an empty list. *)
Definition dd_getitem (d : cells) (key : Z * time) : list string * cells :=
  match d !! key with
  | Some l => (l, d)
  | None => ([], <[key := []]> d)
  end.

(** [d[key].append(x)]. *)
Definition dd_append (d : cells) (key : Z * time) (x : string) : cells :=
  <[key := dd_lookup d key ++ [x]]> d.

(** ** The functions of [main.py] *)

Section Main.

(** The collaborators of [main.py] that live in the modules [timetable] and
    [config]: the configuration and the selection map are opaque values,
    the functions are taken as they are. *)
Variable Config : Type.
Variable Selection : Type.
(** [timetable.activities_on(courses, date, selected_activities)] *)
Variable activities_on :
  list Course -> datetime -> Selection -> list (Course * Activity).
(** [activity.location_valid_for(date)] *)
Variable location_valid_for : Activity -> datetime -> Location.
(** [config.colour_of_course(config_dict, course).value] *)
Variable colour_of_course : Config -> Course -> string.
(** [config.TermColour.RESET.value] *)
Variable RESET : string.
(** [config.get_courses(config_dict)] *)
Variable get_courses : Config -> list Course.
(** [course.fetch_activities()]: the course with its activities fetched,
    or the exception the data source raised *)
Variable fetch_activities : Course -> exn + Course.
(** [config.get_selected_activities(config_dict, courses)] *)
Variable get_selected_activities : Config -> list Course -> Selection.

(** The line [print_activity] prints. *)
Definition activity_line (config_dict : Config) (date : datetime)
    (course : Course) (activity : Activity) : string :=
  let relevant_location := location_valid_for activity date in
  let start_s := strftime_HM (start activity) in
  let colour := colour_of_course config_dict course in
  let title_s := colour +:+ title course +:+ RESET in
  let end_s := strftime_HM (end_ activity) in
  start_s +:+ " - " +:+ end_s +:+ " :: " +:+ title_s +:+ " "
  +:+ name activity +:+ " @ " +:+ place relevant_location.

Definition print_activity (config_dict : Config) (date : datetime)
    (course : Course) (activity : Activity) : M unit :=
  print (activity_line config_dict date course activity).

(** The text of one box:
    [f'{course.title}\n\n{activity.name}\n{location.place}\n{activity.end:%H:%M}']. *)
Definition activity_text (course : Course) (activity : Activity)
    (location : Location) : string :=
  title course +:+ nl +:+ nl +:+ name activity +:+ nl +:+ place location
  +:+ nl +:+ strftime_HM (end_ activity).

(** The binning loop of [print_timeline]. *)
Fixpoint bin_activities (mapping : list (string * list string))
    (activities : list (Course * Activity * Location))
  : list (string * list string) :=
  match activities with
  | [] => mapping
  | (course, activity, location) :: rest =>
      let key := strftime_HM (start activity) in
      let map_bin := od_get mapping key [] in
      let map_bin := map_bin ++ [activity_text course activity location] in
      bin_activities (od_set mapping key map_bin) rest
  end.

(** [activities] with the location of each resolved (the list
    comprehension at the head of [print_timeline]). *)
Definition resolve_locations (date : datetime)
    (activities : list (Course * Activity))
  : list (Course * Activity * Location) :=
  map (fun '(course, activity) =>
         (course, activity, location_valid_for activity date)) activities.

(** [itertools.chain(titles, names, locations)]. *)
Definition timeline_labels
    (activities : list (Course * Activity * Location)) : list string :=
  map (fun '(course, _, _) => title course) activities
  ++ map (fun '(_, act, _) => name act) activities
  ++ map (fun '(_, _, location) => place location) activities.

Definition print_timeline (config_dict : Config) (date : datetime)
    (activities : list (Course * Activity)) : M unit :=
  if Z.of_nat (length activities) =? 0 then ret tt
  else
    let activities := resolve_locations date activities in
    longest <- py_max (map len (timeline_labels activities)) ;;
    let box_width := longest * 4 in
    let box_height := 25 in
    let mapping := bin_activities [] activities in
    emit (DrawTimeline 0 0 box_width box_height mapping) ;;;
    emit PrintFrame.

Definition find_day_of_week (date : datetime) (weekday : Z) : M datetime :=
  lift (datetime_add date (td_days (weekday - Py.weekday date))).

(** The rounding of the latest end time, lines 176-178. *)
Definition round_up_latest (latest_time : time) : M time :=
  if minute latest_time + second latest_time >? 0 then
    t <- lift (time_add latest_time (td_hours 1)) ;;
    ret (time_replace_minute_second t 0 0)
  else ret latest_time.

(** The body of the loop of lines 180-186 for one activity. *)
Definition render_activity (date : datetime) (rendered_activities : cells)
    (ca : Course * Activity) : M cells :=
  let '(course, activity) := ca in
  let hours := hour (end_ activity) - hour (start activity) in
  for_each (range hours)
    (fun rendered_activities hour_ =>
       let dt := replace_hms date (hour (start activity)) 0 0 in
       t <- lift (datetime_add dt (td_hours hour_)) ;;
       ret (dd_append rendered_activities (day activity, time_of t)
              (title course +:+ " " +:+ name activity)))
    rendered_activities.

Definition render_activities (date : datetime)
    (day_activities : list (Course * Activity)) : M cells :=
  for_each day_activities (render_activity date) ∅.

(** The cells of one row, lines 194-195; the dictionary is threaded because
    reading a missing key inserts it. *)
Definition render_row_cells (dt : time) (rendered_activities : cells)
  : list string * cells :=
  fold_left
    (fun '(row, d) day_ =>
       let '(l, d') := dd_getitem d (day_, dt) in
       (row ++ [join nl l], d'))
    (range (Z.of_nat (length day_name) - 2))
    ([], rendered_activities).

(** The loop of lines 189-196: the hour rows, in the order they are
    appended. *)
Definition render_rows (date : datetime) (earliest_time latest_time : time)
    (rendered_activities : cells) : M (list (list string)) :=
  let hours := hour latest_time - hour earliest_time in
  r <- for_each (range hours)
         (fun '(rows, d) hour_ =>
            let e_dt := replace_hms date (hour earliest_time) 0 0 in
            t <- lift (datetime_add e_dt (td_hours hour_)) ;;
            let dt := time_of t in
            let '(cs, d') := render_row_cells dt d in
            ret (rows ++ [strftime_HM dt :: cs], d'))
         ([], rendered_activities) ;;
  ret (fst r).

(** [dates] and [day_activities], lines 163-170. *)
Definition week_activities (date : datetime) (courses : list Course)
    (selected_activities : Selection) : M (list (Course * Activity)) :=
  dates <- map_M (find_day_of_week date) (seqZ MONDAY (SATURDAY - MONDAY)) ;;
  ret (concat (map (fun date => activities_on courses date selected_activities)
                 dates)).

Definition print_week_timetable (config_dict : Config) (date : datetime)
    (courses : list Course) (selected_activities : Selection) : M unit :=
  day_activities <- week_activities date courses selected_activities ;;
  if Z.of_nat (length day_activities) =? 0 then ret tt
  else
    first <- py_min_by (fun act => start (snd act)) day_activities ;;
    let earliest_time := start (snd first) in
    last_ <- py_max_by (fun act => end_ (snd act)) day_activities ;;
    let latest_time := end_ (snd last_) in
    let earliest_time := time_replace_minute_second earliest_time 0 0 in
    latest_time <- round_up_latest latest_time ;;
    rendered_activities <- render_activities date day_activities ;;
    let header := "" :: take 5 day_name in
    rows <- render_rows date earliest_time latest_time rendered_activities ;;
    let rendered_timetable := header :: rows in
    emit (DrawTable 0 0 rendered_timetable) ;;;
    emit PrintFrame.

(** [args['--on'] or datetime.now()]: a datetime is always true, so the
    clock is read exactly when [--on] is absent. *)
Definition date_of_args (args : Args) (now : datetime) : datetime :=
  match arg_on args with
  | Some d => d
  | None => now
  end.

Definition show_week (config_dict : Config) (courses : list Course)
    (selected_activities : Selection) (args : Args) (now : datetime)
  : M unit :=
  let date := date_of_args args now in
  print ("Showing timetable for " +:+ format_week_of_year date) ;;;
  print_week_timetable config_dict date courses selected_activities.

Definition show_timetable (config_dict : Config) (courses : list Course)
    (selected_activities : Selection) (args : Args) (now : datetime)
  : M unit :=
  let date := date_of_args args now in
  let activities := activities_on courses date selected_activities in
  let day_s := nth (Z.to_nat (Py.weekday date)) day_name "" in
  let isodate := isoformat_date date in
  print ("Showing timetable for " +:+ day_s +:+ ", " +:+ isodate) ;;;
  if arg_timeline args then print_timeline config_dict date activities
  else
    for_each activities
      (fun _ '(course, activity) =>
         print_activity config_dict date course activity)
      tt.

(** [next(((course, activity) for ... if activity.start > now.time()), None)]. *)
Definition next_activity (activities : list (Course * Activity))
    (now : datetime) : option (Course * Activity) :=
  List.find (fun '(course, activity) => time_gtb (start activity) (time_of now))
    activities.

(** The delta printed with [--time], lines 252-253. *)
Definition time_to_next (now : datetime) (act : Activity) : timedelta :=
  let time_dt := replace_hm now (hour (start act)) (minute (start act)) in
  datetime_sub time_dt now.

Definition show_next (config_dict : Config) (courses : list Course)
    (selected_activities : Selection) (args : Args) (now : datetime)
  : M unit :=
  let activities := activities_on courses now selected_activities in
  match next_activity activities now with
  | Some (course, act) =>
      if arg_time args then
        let delta := time_to_next now act in
        print (timedelta_str delta)
      else print_activity config_dict now course act
  | None => ret tt
  end.

(** [COMMAND_MAP], in the order the [@command] decorators run. *)
Definition Callback : Type :=
  Config -> list Course -> Selection -> Args -> datetime -> M unit.

Definition COMMAND_MAP : list (string * Callback) :=
  [("week", show_week); ("show", show_timetable); ("next", show_next)].

(** [next(callback for cmd, callback in COMMAND_MAP.items()
          if arguments[cmd] is True)]. *)
Definition find_callback (arguments : Args) : M Callback :=
  match List.find (fun '(cmd, _) => arg_command arguments cmd) COMMAND_MAP with
  | Some (_, callback) => ret callback
  | None => raise StopIteration
  end.

(** [for course in courses: course.fetch_activities()], lines 276-277:
    the courses are fetched in order, the first failure stops the run. *)
Definition fetch_all (courses : list Course) : M (list Course) :=
  map_M (fun course => lift (fetch_activities course)) courses.

(** The course list the run works on, lines 274-279: fetched when there is
    no data file or [--drop-cache] is given, the cached list otherwise. *)
Definition load_courses (arguments : Args) (data : option (list Course))
    (config_dict : Config) : M (list Course) :=
  let courses := get_courses config_dict in
  match data with
  | Some cached =>
      if arg_drop_cache arguments then fetch_all courses
      else ret cached
  | None => fetch_all courses
  end.

(** [main], from the point where the command line is validated and
    [get_config] has returned [data] (the cached course list, if the data
    file exists) and [config_dict]. *)
Definition main (arguments : Args) (data : option (list Course))
    (config_dict : Config) (now : datetime) : M unit :=
  courses <- load_courses arguments data config_dict ;;
  let selected_activities := get_selected_activities config_dict courses in
  callback <- find_callback arguments ;;
  callback config_dict courses selected_activities arguments now ;;;
  emit (PickleDump courses).

End Main.

(** ** The collaborators, as the spec describes them

    [main.py] imports them from the modules [timetable] and [config]; the
    properties below hold for any collaborators, these instances are used
    to run the program on concrete timetables. *)

Module Collab.

#[global] Instance Location_eq_dec : EqDecision Location.
Proof. solve_decision. Defined.

#[global] Instance Activity_eq_dec : EqDecision Activity.
Proof. solve_decision. Defined.

Definition in_window (date : datetime) (l : Location) : bool :=
  (valid_from l <=? toordinal date) && (toordinal date <=? valid_to l).

Definition ends_before (date : datetime) (l : Location) : bool :=
  valid_to l <? toordinal date.

(** Modelled from the spec: [Activity.location_valid_for] of the module
    [timetable] (section 4.2).  The first location whose window contains
    the date; with none, the location whose window ends closest before the
    date; with none before it, the first declared location. *)
Definition location_valid_for (activity : Activity) (date : datetime)
  : Location :=
  match List.filter (in_window date) (locations activity) with
  | l :: _ => l
  | [] =>
      match List.filter (ends_before date) (locations activity) with
      | l :: rest =>
          fold_left
            (fun best y => if valid_to best <? valid_to y then y else best)
            rest l
      | [] => hd (mk_Location "" 0 0) (locations activity)
      end
  end.

(** The selection map: the chosen activity of a (course title, activity
    name) slot. *)
Definition Selection : Type := list (string * string * Activity).

Fixpoint chosen (selection : Selection) (course_title slot : string)
  : option Activity :=
  match selection with
  | [] => None
  | (t, s, a) :: rest =>
      if String.eqb t course_title && String.eqb s slot then Some a
      else chosen rest course_title slot
  end.

Definition selected (selection : Selection) (course : Course)
    (activity : Activity) : bool :=
  match chosen selection (title course) (name activity) with
  | Some a => bool_decide (a = activity)
  | None => true
  end.

(** [(start, title)] of the first pair is at most that of the second. *)
Definition pair_leb (p q : Course * Activity) : bool :=
  time_ltb (start (snd p)) (start (snd q))
  || (time_leb (start (snd p)) (start (snd q))
      && String.leb (title (fst p)) (title (fst q))).

Fixpoint insert_sorted (p : Course * Activity) (l : list (Course * Activity))
  : list (Course * Activity) :=
  match l with
  | [] => [p]
  | q :: rest => if pair_leb p q then p :: l else q :: insert_sorted p rest
  end.

(** Modelled from the spec: [timetable.activities_on] (section 4.1).  The
    activities of the date's weekday that the selection map retains, by
    start time, ties by course title. *)
Definition activities_on (courses : list Course) (date : datetime)
    (selection : Selection) : list (Course * Activity) :=
  let candidates :=
    concat (map (fun course =>
                   map (fun activity => (course, activity))
                     (List.filter
                        (fun activity =>
                           (day activity =? weekday date)
                           && selected selection course activity)
                        (activities course)))
              courses) in
  fold_right insert_sorted [] candidates.

(** The parsed configuration: the colour of each course, the courses and
    the selection. *)
Record Config : Type := mk_Config {
  colours : list (string * string);
  courses : list Course;
  selection : Selection
}.

(** Modelled from the spec: [config.colour_of_course], the display colour
    of a course, looked up by title. *)
Definition colour_of_course (config_dict : Config) (course : Course)
  : string :=
  od_get (colours config_dict) (title course) "".

(** The escape sequence that resets the terminal colour. *)
Definition RESET : string := String (ascii_of_nat 27) "[0m".

Definition get_courses (config_dict : Config) : list Course :=
  courses config_dict.

Definition get_selected_activities (config_dict : Config)
    (cs : list Course) : Selection :=
  selection config_dict.

(** A data source that answers: fetching leaves a course as it is
    described. *)
Definition fetch_activities (course : Course) : exn + Course := inr course.

(** A data source that cannot be reached. *)
Definition fetch_unreachable (course : Course) : exn + Course :=
  inl (Exception "ConnectionError").

End Collab.

(** ** Concrete timetables *)

Module Data.

Definition hm (h m : Z) : time := mk_time h m 0 0.

(** Monday 2026-11-02 and the days of its week. *)
Definition monday : datetime := mk_datetime 739922 (hm 0 0).
Definition tuesday : datetime := mk_datetime 739923 (hm 0 0).

Definition room (p : string) : Location := mk_Location p 739922 MAXORDINAL.

Definition lecture : Activity :=
  mk_Activity "Lecture" 0 (hm 9 0) (hm 10 0) [room "A1"].
Definition CS101 : Course := mk_Course "CS101" [lecture].

Definition green : string := String (ascii_of_nat 27) "[32m".

Definition cfg (cs : list Course) : Collab.Config :=
  Collab.mk_Config [("CS101", green)] cs [].

Definition no_args : Args :=
  mk_Args None false false false false false false false.
Definition show_on (d : datetime) (timeline : bool) : Args :=
  mk_Args (Some d) false false false true false false timeline.
Definition week_on (d : datetime) : Args :=
  mk_Args (Some d) false false false false true false false.
Definition next_args (time_mode : bool) : Args :=
  mk_Args None false time_mode true false false false false.

(** The program with the collaborators of [Collab]. *)
Definition run_show (cs : list Course) (args : Args) (now : datetime)
  : M unit :=
  show_timetable Collab.Config Collab.Selection Collab.activities_on
    Collab.location_valid_for Collab.colour_of_course Collab.RESET
    (cfg cs) cs [] args now.

Definition run_week (cs : list Course) (args : Args) (now : datetime)
  : M unit :=
  show_week Collab.Config Collab.Selection Collab.activities_on
    (cfg cs) cs [] args now.

Definition run_next (cs : list Course) (args : Args) (now : datetime)
  : M unit :=
  show_next Collab.Config Collab.Selection Collab.activities_on
    Collab.location_valid_for Collab.colour_of_course Collab.RESET
    (cfg cs) cs [] args now.

Definition run_main (cs : list Course) (data : option (list Course))
    (args : Args) (now : datetime) : M unit :=
  main Collab.Config Collab.Selection Collab.activities_on
    Collab.location_valid_for Collab.colour_of_course Collab.RESET
    Collab.get_courses Collab.fetch_activities Collab.get_selected_activities
    args data (cfg cs) now.

(** The same run when the data source cannot be reached. *)
Definition run_main_unreachable (cs : list Course)
    (data : option (list Course)) (args : Args) (now : datetime) : M unit :=
  main Collab.Config Collab.Selection Collab.activities_on
    Collab.location_valid_for Collab.colour_of_course Collab.RESET
    Collab.get_courses Collab.fetch_unreachable
    Collab.get_selected_activities
    args data (cfg cs) now.

(** A week with activities 09:00-10:30 and 13:00-14:00. *)
Definition tutorial : Activity :=
  mk_Activity "Tutorial" 0 (hm 9 0) (hm 10 30) [room "B2"].
Definition lab : Activity :=
  mk_Activity "Lab" 2 (hm 13 0) (hm 14 0) [room "C3"].
Definition MATH102 : Course := mk_Course "MATH102" [tutorial; lab].

(** A week whose latest activity ends at 10:30. *)
Definition MATH103 : Course := mk_Course "MATH103" [tutorial].

(** A short activity, 08:10-08:50, next to a lecture. *)
Definition briefing : Activity :=
  mk_Activity "Briefing" 1 (hm 8 10) (hm 8 50) [room "D4"].
Definition CS102 : Course := mk_Course "CS102" [lecture; briefing].

(** A day with activities at 09:00 and 14:00. *)
Definition seminar : Activity :=
  mk_Activity "Seminar" 0 (hm 14 0) (hm 15 0) [room "E5"].
Definition CS103 : Course := mk_Course "CS103" [lecture; seminar].

(** At 10:00:30.000005 on a day with activities at 09:00 and 14:00. *)
Definition half_past_ten_sharp : datetime :=
  mk_datetime 739922 (mk_time 10 0 30 5).

(** The spec's example of the finder: activities at 09:00 and 14:00. *)
Definition ten_o_clock : datetime := mk_datetime 739922 (hm 10 0).
Definition three_pm : datetime := mk_datetime 739922 (hm 15 0).

(** The day view of the current moment, in list mode. *)
Definition show_now : Args :=
  mk_Args None false false false true false false false.

(** A two-hour activity, Wednesday 10:00-12:00, next to the lecture. *)
Definition workshop : Activity :=
  mk_Activity "Workshop" 2 (hm 10 0) (hm 12 0) [room "F6"].
Definition CS104 : Course := mk_Course "CS104" [lecture; workshop].

(** A Monday with activities at 09:00, 14:00 and 18:00. *)
Definition evening_class : Activity :=
  mk_Activity "Evening class" 0 (hm 18 0) (hm 19 0) [room "G7"].
Definition CS105 : Course := mk_Course "CS105" [lecture; seminar; evening_class].

(** A place whose name has a character beyond ASCII: "Rehua" with a
    macron on the e (U+0113, two bytes in UTF-8), five characters. *)
Definition rehua : string :=
  String "R"%char
    (String (ascii_of_nat 196) (String (ascii_of_nat 147) "hua")).
Definition geog_lab : Activity :=
  mk_Activity "Lab" 3 (hm 11 0) (hm 12 0) [room rehua].
Definition GEOG : Course := mk_Course "GEOG" [geog_lab].

(** Friday of the week of [monday]. *)
Definition friday : datetime := mk_datetime 739926 (hm 0 0).

End Data.

(** ** The statements of the spec, in its own words *)

Module Spec.

(** "The next activity's start, anchored to today's date": the date of
    [now] with the start time of the activity. *)
Definition anchored_start (now : datetime) (act : Activity) : datetime :=
  mk_datetime (toordinal now) (start act).

(** "The time-remaining delta": the anchored start minus [now]. *)
Definition time_remaining (now : datetime) (act : Activity) : timedelta :=
  datetime_sub (anchored_start now act) now.

(** [sub] occurs in [s]. *)
Definition contains (s sub : string) : Prop :=
  exists pre post, s = pre +:+ sub +:+ post.

(** The keys of a list in first-seen order, [seen] being the keys met
    before. *)
Fixpoint first_seen (seen keys : list string) : list string :=
  match keys with
  | [] => []
  | k :: rest =>
      if existsb (String.eqb k) seen then first_seen seen rest
      else k :: first_seen (seen ++ [k]) rest
  end.

(** The time of day in microseconds since midnight. *)
Definition microseconds_of_day (t : time) : Z :=
  seconds_of_day t * 1000000 + microsecond t.

(** The character [c] does not occur in [s]. *)
Fixpoint free_of (c : ascii) (s : string) : Prop :=
  match s with
  | EmptyString => True
  | String c' rest => c' <> c /\ free_of c rest
  end.

End Spec.

(** ** The notions the properties are stated with *)

Section Statements.

Variable Selection : Type.
Variable activities_on :
  list Course -> datetime -> Selection -> list (Course * Activity).
Variable location_valid_for : Activity -> datetime -> Location.

(** The header of the day view. *)
Definition day_header (date : datetime) : string :=
  "Showing timetable for "
  +:+ nth (Z.to_nat (weekday date)) day_name "" +:+ ", "
  +:+ isoformat_date date.

(** The labels of a batch: the titles, then the names, then the resolved
    places. *)
Definition batch_labels (date : datetime)
    (activities : list (Course * Activity)) : list string :=
  map (fun ca => title (fst ca)) activities
  ++ map (fun ca => name (snd ca)) activities
  ++ map (fun ca => place (location_valid_for (snd ca) date)) activities.

(** The key of a resolved activity: its start time as HH:MM. *)
Definition bucket_key (x : Course * Activity * Location) : string :=
  strftime_HM (start (snd (fst x))).

(** The text block of a resolved activity. *)
Definition block_of (x : Course * Activity * Location) : string :=
  activity_text (fst (fst x)) (snd (fst x)) (snd x).

(** The five lines of a text block. *)
Definition block_lines (course : Course) (activity : Activity)
    (location : Location) : list string :=
  [title course; ""; name activity; place location;
   strftime_HM (end_ activity)].

(** Monday to Friday of the week of [date]. *)
Definition week_dates (date : datetime) : list datetime :=
  map (fun day_ =>
         mk_datetime (toordinal date + (day_ - weekday date)) (time_of date))
    [0; 1; 2; 3; 4].

(** The header of the week view. *)
Definition week_header (date : datetime) : string :=
  "Showing timetable for " +:+ format_week_of_year date.

(** The union of the activities of Monday to Friday. *)
Definition week_union (date : datetime) (courses : list Course)
    (selected_activities : Selection) : list (Course * Activity) :=
  concat (map (fun d => activities_on courses d selected_activities)
            (week_dates date)).

(** The order on times as a proposition. *)
Definition time_lt (a b : time) : Prop :=
  hour a < hour b
  \/ (hour a = hour b
      /\ (minute a < minute b
          \/ (minute a = minute b
              /\ (second a < second b
                  \/ (second a = second b
                      /\ microsecond a < microsecond b))))).

Definition is_dump (e : effect) : bool :=
  match e with
  | PickleDump _ => true
  | _ => false
  end.

(** The number of times the course list is written. *)
Definition dumps (t : list effect) : nat := length (List.filter is_dump t).

(** A computation that never writes the course list. *)
Definition quiet {A} (m : M A) : Prop := dumps (trace m) = 0%nat.

(** The time of the row of hour [h]: the microsecond of [date] is kept by
    [date.replace(hour=h, minute=0, second=0)]. *)
Definition hour_slot (date : datetime) (h : Z) : time :=
  mk_time h 0 0 (microsecond (time_of date)).

(** The cells an activity fills: one per clock hour from its start hour up
    to, and not including, its end hour. *)
Definition fill_activity (date : datetime) (d : cells)
    (ca : Course * Activity) : cells :=
  fold_left
    (fun d k =>
       dd_append d (day (snd ca), hour_slot date (hour (start (snd ca)) + k))
         (title (fst ca) +:+ " " +:+ name (snd ca)))
    (range (hour (end_ (snd ca)) - hour (start (snd ca)))) d.

Definition fill_activities (date : datetime)
    (day_activities : list (Course * Activity)) : cells :=
  fold_left (fill_activity date) day_activities ∅.

(** The row of hour [h]: its label and the five weekday cells. *)
Definition grid_row (date : datetime) (d : cells) (h : Z) : list string :=
  strftime_HM (hour_slot date h)
  :: map (fun day_ => join nl (dd_lookup d (day_, hour_slot date h)))
       [0; 1; 2; 3; 4].

(** Two dictionaries that read the same everywhere. *)
Definition same_cells (d d' : cells) : Prop :=
  forall key, dd_lookup d' key = dd_lookup d key.

(** The text an activity leaves in a cell of the week grid. *)
Definition cell_text (ca : Course * Activity) : string :=
  title (fst ca) +:+ " " +:+ name (snd ca).

(** The activity is held on weekday [d] and the clock hour [h] lies
    between its start hour and its end hour, the end hour excluded. *)
Definition covers (d h : Z) (ca : Course * Activity) : bool :=
  (day (snd ca) =? d)
  && (hour (start (snd ca)) <=? h) && (h <? hour (end_ (snd ca))).

(** The texts of the cell of weekday [d] and hour [h], in the order of the
    week's activities. *)
Definition cell_entries (d h : Z) (day_activities : list (Course * Activity))
  : list string :=
  map cell_text (List.filter (covers d h) day_activities).

(** The table of a week: the header row, then one row per hour from [e]
    up to, and not including, [l]. *)
Definition week_table (day_activities : list (Course * Activity)) (e l : Z)
  : list (list string) :=
  [""; "Monday"; "Tuesday"; "Wednesday"; "Thursday"; "Friday"]
  :: map (fun h =>
            (pad2 h +:+ ":" +:+ pad2 0)
            :: map (fun d => join nl (cell_entries d h day_activities))
                 [0; 1; 2; 3; 4])
       (seqZ e (l - e)).

(** The row of hour [h] of the table of a week. *)
Definition week_row (day_activities : list (Course * Activity)) (h : Z)
  : list string :=
  (pad2 h +:+ ":" +:+ pad2 0)
  :: map (fun d => join nl (cell_entries d h day_activities)) [0; 1; 2; 3; 4].

(** The second pair starts no earlier than the first. *)
Definition starts_no_later (p q : Course * Activity) : Prop :=
  time_ltb (start (snd q)) (start (snd p)) = false.

(** The minutes from the hour and minute of [now] to those of the start of
    an activity. *)
Definition minutes_until (now : datetime) (act : Activity) : Z :=
  (hour (start act) - hour (time_of now)) * 60
  + (minute (start act) - minute (time_of now)).

End Statements.

(** ** Properties *)

(** *** The monad *)

Lemma bind_ret {A B} (a : A) (k : A -> M B) : bind (ret a) k = k a.
Proof. unfold bind, ret. destruct (k a); reflexivity. Qed.

Lemma bind_raise {A B} (e : exn) (k : A -> M B) : bind (raise e) k = raise e.
Proof. reflexivity. Qed.

Lemma bind_emit {B} (e : effect) (k : unit -> M B) :
  bind (emit e) k = (e :: trace (k tt), outcome (k tt)).
Proof. unfold bind, emit, trace, outcome. destruct (k tt); reflexivity. Qed.

Lemma bind_lift_inr {A B} (a : A) (k : A -> M B) :
  bind (lift (inr a)) k = k a.
Proof. apply bind_ret. Qed.

Lemma bind_lift_inl {A B} (e : exn) (k : A -> M B) :
  bind (lift (inl e)) k = raise e.
Proof. reflexivity. Qed.

Lemma bind_value {A B} (t : list effect) (a : A) (k : A -> M B) :
  bind (t, inr a) k = (t ++ trace (k a), outcome (k a)).
Proof. unfold bind, trace, outcome. destruct (k a); reflexivity. Qed.

Lemma M_eta {A} (m : M A) : m = (trace m, outcome m).
Proof. destruct m; reflexivity. Qed.

(** *** Strings *)

Lemma append_assoc (a b c : string) : (a +:+ b) +:+ c = a +:+ (b +:+ c).
Proof.
  induction a as [|x a IH]; [reflexivity|].
  change (String x ((a +:+ b) +:+ c) = String x (a +:+ (b +:+ c))).
  f_equal; exact IH.
Qed.

Lemma append_nil_r (a : string) : a +:+ "" = a.
Proof.
  induction a as [|x a IH]; [reflexivity|].
  change (String x (a +:+ "") = String x a). f_equal; exact IH.
Qed.

Lemma contains_intro (pre sub post s : string) :
  s = pre +:+ sub +:+ post -> Spec.contains s sub.
Proof. intros ->. exists pre, post. reflexivity. Qed.

(** *** The order on times *)

Lemma time_ltb_irrefl (t : time) : time_ltb t t = false.
Proof.
  unfold time_ltb. rewrite !Z.ltb_irrefl, !Z.eqb_refl. reflexivity.
Qed.

(** On valid times, [time_ltb] is the order of the instants of the day. *)
Lemma time_ltb_microseconds (a b : time) :
  time_valid a -> time_valid b ->
  time_ltb a b = (Spec.microseconds_of_day a <? Spec.microseconds_of_day b).
Proof.
  unfold time_valid, time_ltb, Spec.microseconds_of_day, seconds_of_day.
  intros Ha Hb.
  destruct (Z.ltb_spec (hour a) (hour b)); simpl;
    [symmetry; apply Z.ltb_lt; lia|].
  destruct (Z.eqb_spec (hour a) (hour b)); simpl;
    [|symmetry; apply Z.ltb_ge; lia].
  destruct (Z.ltb_spec (minute a) (minute b)); simpl;
    [symmetry; apply Z.ltb_lt; lia|].
  destruct (Z.eqb_spec (minute a) (minute b)); simpl;
    [|symmetry; apply Z.ltb_ge; lia].
  destruct (Z.ltb_spec (second a) (second b)); simpl;
    [symmetry; apply Z.ltb_lt; lia|].
  destruct (Z.eqb_spec (second a) (second b)); simpl;
    [|symmetry; apply Z.ltb_ge; lia].
  destruct (Z.ltb_spec (microsecond a) (microsecond b));
    symmetry; [apply Z.ltb_lt | apply Z.ltb_ge]; lia.
Qed.

Section Properties.

Variable Config : Type.
Variable Selection : Type.
Variable activities_on :
  list Course -> datetime -> Selection -> list (Course * Activity).
Variable location_valid_for : Activity -> datetime -> Location.
Variable colour_of_course : Config -> Course -> string.
Variable RESET : string.
Variable get_courses : Config -> list Course.
Variable fetch_activities : Course -> exn + Course.
Variable get_selected_activities : Config -> list Course -> Selection.

Local Abbreviation activity_line' :=
  (activity_line Config location_valid_for colour_of_course RESET).
Local Abbreviation print_activity' :=
  (print_activity Config location_valid_for colour_of_course RESET).
Local Abbreviation print_timeline' :=
  (print_timeline Config location_valid_for).
Local Abbreviation print_week_timetable' :=
  (print_week_timetable Config Selection activities_on).
Local Abbreviation show_week' := (show_week Config Selection activities_on).
Local Abbreviation show_timetable' :=
  (show_timetable Config Selection activities_on location_valid_for
     colour_of_course RESET).
Local Abbreviation show_next' :=
  (show_next Config Selection activities_on location_valid_for
     colour_of_course RESET).
Local Abbreviation find_callback' :=
  (find_callback Config Selection activities_on location_valid_for
     colour_of_course RESET).
Local Abbreviation main' :=
  (main Config Selection activities_on location_valid_for colour_of_course
     RESET get_courses fetch_activities get_selected_activities).
Local Abbreviation load_courses' :=
  (load_courses Config get_courses fetch_activities).
Local Abbreviation batch_labels' := (batch_labels location_valid_for).
Local Abbreviation week_union' := (week_union Selection activities_on).

(** *** The day view *)

Lemma print_activities_trace (config_dict : Config) (date : datetime)
    (activities : list (Course * Activity)) :
  for_each activities
    (fun _ '(course, activity) =>
       print_activity' config_dict date course activity) tt
  = (map (fun ca => Print (activity_line' config_dict date (fst ca) (snd ca)))
       activities, inr tt).
Proof.
  induction activities as [|[course activity] rest IH]; simpl.
  - reflexivity.
  - unfold print_activity at 1, print. rewrite bind_emit, IH. reflexivity.
Qed.

(** C6: without [--timeline], the day view prints its header and then, for
    every (course, activity) pair in the order of the activity selector,
    exactly one line; the line is made of the zero-padded HH:MM start and
    end times, the course title between its colour and the reset sequence,
    the activity name and the resolved place, and so contains each of
    them. *)
Theorem C6_day_view_one_line_per_activity
    (config_dict : Config) (courses : list Course)
    (selected_activities : Selection) (args : Args) (now : datetime) :
  arg_timeline args = false ->
  let date := date_of_args args now in
  let activities := activities_on courses date selected_activities in
  show_timetable' config_dict courses selected_activities args now
  = (Print (day_header date)
       :: map (fun ca =>
                 Print (activity_line' config_dict date (fst ca) (snd ca)))
            activities,
     inr tt)
  /\ forall course activity,
       let line := activity_line' config_dict date course activity in
       let place_s := place (location_valid_for activity date) in
       line
       = pad2 (hour (start activity)) +:+ ":" +:+ pad2 (minute (start activity))
         +:+ " - "
         +:+ pad2 (hour (end_ activity)) +:+ ":" +:+ pad2 (minute (end_ activity))
         +:+ " :: "
         +:+ colour_of_course config_dict course +:+ title course +:+ RESET
         +:+ " " +:+ name activity +:+ " @ " +:+ place_s
       /\ Spec.contains line
            (strftime_HM (start activity) +:+ " - "
             +:+ strftime_HM (end_ activity))
       /\ Spec.contains line
            (colour_of_course config_dict course +:+ title course +:+ RESET)
       /\ Spec.contains line (title course)
       /\ Spec.contains line (name activity)
       /\ Spec.contains line place_s.
Proof.
  intros Htl date activities. split.
  - unfold show_timetable. rewrite Htl. unfold print. rewrite bind_emit.
    rewrite print_activities_trace. reflexivity.
  - intros course activity line place_s. subst line place_s.
    unfold activity_line, strftime_HM.
    set (hs := pad2 (hour (start activity))).
    set (ms := pad2 (minute (start activity))).
    set (he := pad2 (hour (end_ activity))).
    set (me := pad2 (minute (end_ activity))).
    set (c := colour_of_course config_dict course).
    set (p := place (location_valid_for activity date)).
    split; [now rewrite !append_assoc|].
    split.
    { apply (contains_intro ""
               _ (" :: " +:+ (c +:+ title course +:+ RESET) +:+ " "
                  +:+ name activity +:+ " @ " +:+ p)).
      simpl. now rewrite !append_assoc. }
    split.
    { apply (contains_intro ((hs +:+ ":" +:+ ms) +:+ " - "
                             +:+ (he +:+ ":" +:+ me) +:+ " :: ")
               _ (" " +:+ name activity +:+ " @ " +:+ p)).
      now rewrite !append_assoc. }
    split.
    { apply (contains_intro ((hs +:+ ":" +:+ ms) +:+ " - "
                             +:+ (he +:+ ":" +:+ me) +:+ " :: " +:+ c)
               _ (RESET +:+ " " +:+ name activity +:+ " @ " +:+ p)).
      now rewrite !append_assoc. }
    split.
    { apply (contains_intro ((hs +:+ ":" +:+ ms) +:+ " - "
                             +:+ (he +:+ ":" +:+ me) +:+ " :: "
                             +:+ (c +:+ title course +:+ RESET) +:+ " ")
               _ (" @ " +:+ p)).
      now rewrite !append_assoc. }
    apply (contains_intro ((hs +:+ ":" +:+ ms) +:+ " - "
                           +:+ (he +:+ ":" +:+ me) +:+ " :: "
                           +:+ (c +:+ title course +:+ RESET) +:+ " "
                           +:+ name activity +:+ " @ ")
             _ "").
    now rewrite !append_assoc, append_nil_r.
Qed.

(** *** The next-activity view *)

Lemma find_first {A} (f : A -> bool) (l : list A) :
  match List.find f l with
  | Some x =>
      exists before after,
        l = before ++ x :: after /\ f x = true
        /\ Forall (fun y => f y = false) before
  | None => Forall (fun y => f y = false) l
  end.
Proof.
  induction l as [|y l IH]; simpl.
  - constructor.
  - destruct (f y) eqn:Hy.
    + exists [], l. repeat split; [assumption | constructor].
    + destruct (List.find f l) as [x|].
      * destruct IH as (before & after & -> & Hx & Hb).
        exists (y :: before), after. repeat split; [assumption|].
        constructor; assumption.
      * constructor; assumption.
Qed.

(** C4: the next-activity finder returns the first pair of the list whose
    start is strictly later than the time of day of [now]: every pair
    before it starts at or before that time; when no pair starts strictly
    later it returns none, and the view then ends normally without
    printing. *)
Theorem C4_next_activity_first_strictly_later
    (activities : list (Course * Activity)) (now : datetime) :
  (match next_activity activities now with
   | Some p =>
       exists before after,
         activities = before ++ p :: after
         /\ time_ltb (time_of now) (start (snd p)) = true
         /\ Forall (fun q => time_ltb (time_of now) (start (snd q)) = false)
              before
   | None =>
       Forall (fun q => time_ltb (time_of now) (start (snd q)) = false)
         activities
   end)
  /\ (forall config_dict courses selected_activities args,
        activities = activities_on courses now selected_activities ->
        next_activity activities now = None ->
        show_next' config_dict courses selected_activities args now
        = ([], inr tt)).
Proof.
  split.
  - unfold next_activity.
    pose proof (find_first
                  (fun '(course, activity) =>
                     time_gtb (start activity) (time_of now)) activities) as H.
    destruct (List.find _ activities) as [[course activity]|].
    + destruct H as (before & after & Heq & Hp & Hb).
      exists before, after. repeat split; [assumption.. |].
      eapply Forall_impl; [exact Hb|]. intros [c a] Hq. exact Hq.
    + eapply Forall_impl; [exact H|]. intros [c a] Hq. exact Hq.
  - intros config_dict courses selected_activities args -> Hnone.
    unfold show_next. rewrite Hnone. reflexivity.
Qed.

(** What [--time] prints is the difference of the hours and minutes of the
    start and of [now], in whole minutes. *)
Lemma time_to_next_minutes (now : datetime) (act : Activity) :
  time_to_next now act
  = mk_timedelta
      (((hour (start act) - hour (time_of now)) * 3600
        + (minute (start act) - minute (time_of now)) * 60) * 1000000).
Proof.
  unfold time_to_next, datetime_sub, replace_hm, seconds_of_day; simpl.
  f_equal. lia.
Qed.

(** It differs from the time remaining to the anchored start by the
    seconds and microseconds of [now] and of the start. *)
Lemma time_to_next_vs_time_remaining (now : datetime) (act : Activity) :
  total_microseconds (time_to_next now act)
  = total_microseconds (Spec.time_remaining now act)
    + (second (time_of now) - second (start act)) * 1000000
    + (microsecond (time_of now) - microsecond (start act)).
Proof.
  unfold time_to_next, Spec.time_remaining, Spec.anchored_start, datetime_sub,
    replace_hm, seconds_of_day; simpl. lia.
Qed.

(** C3 (amended): in the time mode, when an upcoming activity is found, the
    view prints one value: [now] with its hour and minute replaced by those
    of the activity's start, minus [now].  The seconds and microseconds of
    [now] are kept and cancel, so the value is the difference of the two
    hour-and-minute readings, a whole number of minutes; it is the
    time remaining to the anchored start exactly when [now] and the start
    have the same second and microsecond. *)
Theorem C3_time_mode_prints_hour_minute_delta
    (config_dict : Config) (courses : list Course)
    (selected_activities : Selection) (args : Args) (now : datetime)
    (course : Course) (act : Activity) :
  arg_time args = true ->
  next_activity (activities_on courses now selected_activities) now
  = Some (course, act) ->
  show_next' config_dict courses selected_activities args now
  = ([Print (timedelta_str
               (datetime_sub
                  (replace_hm now (hour (start act)) (minute (start act)))
                  now))],
     inr tt)
  /\ datetime_sub (replace_hm now (hour (start act)) (minute (start act))) now
     = mk_timedelta
         (((hour (start act) - hour (time_of now)) * 60
           + (minute (start act) - minute (time_of now))) * 60000000)
  /\ (datetime_sub (replace_hm now (hour (start act)) (minute (start act))) now
      = Spec.time_remaining now act
      <-> (second (time_of now) - second (start act)) * 1000000
          + (microsecond (time_of now) - microsecond (start act)) = 0).
Proof.
  intros Htime Hnext. split; [|split].
  - unfold show_next. rewrite Hnext, Htime. reflexivity.
  - fold (time_to_next now act). rewrite time_to_next_minutes. f_equal. lia.
  - fold (time_to_next now act).
    pose proof (time_to_next_vs_time_remaining now act) as H.
    split.
    + intros Heq. rewrite Heq in H. lia.
    + intros Hz. destruct (time_to_next now act) as [a] eqn:Ha.
      destruct (Spec.time_remaining now act) as [b] eqn:Hb.
      simpl in H. f_equal. lia.
Qed.

(** *** The timeline layout *)

Lemma fold_max_ge (l : list Z) (x : Z) :
  x <= fold_left Z.max l x /\ Forall (fun y => y <= fold_left Z.max l x) l.
Proof.
  revert x. induction l as [|y l IH]; intros x; simpl.
  - split; [lia | constructor].
  - destruct (IH (Z.max x y)) as [H1 H2]. split; [lia|].
    constructor; [lia | exact H2].
Qed.

Lemma fold_max_in (l : list Z) (x : Z) : In (fold_left Z.max l x) (x :: l).
Proof.
  revert x. induction l as [|y l IH]; intros x; simpl.
  - left; reflexivity.
  - destruct (Z.max_spec x y) as [[_ Hm]|[_ Hm]]; rewrite Hm.
    + destruct (IH y) as [H|H]; auto.
    + destruct (IH x) as [H|H]; auto.
Qed.

Lemma timeline_labels_resolved (date : datetime)
    (activities : list (Course * Activity)) :
  timeline_labels (resolve_locations location_valid_for date activities)
  = batch_labels' date activities.
Proof.
  unfold timeline_labels, resolve_locations, batch_labels.
  rewrite !map_map.
  f_equal; [|f_equal]; apply map_ext; intros [c a]; reflexivity.
Qed.

(** What a non-empty batch draws. *)
Lemma print_timeline_nonempty (config_dict : Config) (date : datetime)
    (activities : list (Course * Activity)) :
  activities <> [] ->
  exists longest,
    print_timeline' config_dict date activities
    = ([DrawTimeline 0 0 (longest * 4) 25
          (bin_activities []
             (resolve_locations location_valid_for date activities));
        PrintFrame], inr tt)
    /\ In longest (map len (batch_labels' date activities))
    /\ Forall (fun n => n <= longest) (map len (batch_labels' date activities)).
Proof.
  intros Hne. unfold print_timeline.
  destruct activities as [|[c a] rest]; [contradiction|].
  replace (Z.of_nat (length ((c, a) :: rest)) =? 0) with false
    by (symmetry; apply Z.eqb_neq; simpl; lia).
  rewrite timeline_labels_resolved.
  remember (batch_labels' date ((c, a) :: rest)) as labels eqn:Hl.
  assert (exists x xs, map len labels = x :: xs) as (x & xs & Hx).
  { subst labels. unfold batch_labels. simpl. eauto. }
  rewrite Hx. unfold py_max. rewrite bind_ret.
  exists (fold_left Z.max xs x). split; [|split].
  - rewrite !bind_emit. reflexivity.
  - apply fold_max_in.
  - destruct (fold_max_ge xs x) as [H1 H2]. constructor; assumption.
Qed.

(** C5: for a non-empty batch the timeline is drawn once, with a box width
    of 4 times the length (the number of characters, [len]) of the longest
    string among the course titles,
    the activity names and the resolved places of the batch (a length that
    one of them has and none exceeds); an empty batch draws and prints
    nothing. *)
Theorem C5_timeline_box_width (config_dict : Config) (date : datetime)
    (activities : list (Course * Activity)) :
  (activities <> [] ->
   exists longest mapping,
     print_timeline' config_dict date activities
     = ([DrawTimeline 0 0 (4 * longest) 25 mapping; PrintFrame], inr tt)
     /\ (exists s, In s (batch_labels' date activities) /\ len s = longest)
     /\ (forall s, In s (batch_labels' date activities) -> len s <= longest))
  /\ print_timeline' config_dict date [] = ([], inr tt).
Proof.
  split; [|reflexivity].
  intros Hne.
  destruct (print_timeline_nonempty config_dict date activities Hne)
    as (longest & Heq & Hin & Hall).
  exists longest, (bin_activities []
                     (resolve_locations location_valid_for date activities)).
  split; [|split].
  - rewrite Heq. now rewrite (Z.mul_comm longest 4).
  - apply in_map_iff in Hin. destruct Hin as (s & Hs & Hin). eauto.
  - intros s Hs. rewrite List.Forall_forall in Hall. apply Hall.
    apply in_map. exact Hs.
Qed.

(** **** The ordered dictionary *)

Lemma od_get_od_set {V} (mapping : list (string * V)) (k k' : string)
    (v d : V) :
  od_get (od_set mapping k v) k' d
  = if String.eqb k k' then v else od_get mapping k' d.
Proof.
  induction mapping as [|[k0 w] rest IH]; simpl.
  - reflexivity.
  - destruct (String.eqb_spec k0 k) as [->|Hne]; simpl.
    + destruct (String.eqb k k'); reflexivity.
    + rewrite IH. destruct (String.eqb_spec k0 k') as [->|]; [|reflexivity].
      destruct (String.eqb_spec k k') as [->|]; [contradiction | reflexivity].
Qed.

Lemma od_set_keys {V} (mapping : list (string * V)) (k : string) (v : V) :
  map fst (od_set mapping k v)
  = if existsb (String.eqb k) (map fst mapping) then map fst mapping
    else map fst mapping ++ [k].
Proof.
  induction mapping as [|[k0 w] rest IH]; simpl.
  - reflexivity.
  - rewrite (String.eqb_sym k k0).
    destruct (String.eqb k0 k); simpl; [reflexivity|].
    rewrite IH. destruct (existsb _ _); reflexivity.
Qed.

Lemma existsb_eqb_In (k : string) (l : list string) :
  existsb (String.eqb k) l = true <-> In k l.
Proof.
  rewrite existsb_exists. split.
  - intros (x & Hx & He). apply String.eqb_eq in He. now subst.
  - intros H. exists k. split; [exact H | apply String.eqb_refl].
Qed.

Lemma od_get_In {V} (mapping : list (string * V)) (k : string) (v d : V) :
  List.NoDup (map fst mapping) -> In (k, v) mapping -> od_get mapping k d = v.
Proof.
  induction mapping as [|[k0 w] rest IH]; simpl; intros Hnd Hin.
  - contradiction.
  - inversion Hnd as [|? ? Hnot Hnd']; subst.
    destruct Hin as [Heq|Hin].
    + inversion Heq; subst. now rewrite String.eqb_refl.
    + destruct (String.eqb_spec k0 k) as [->|]; [|now apply IH].
      exfalso. apply Hnot. change k with (fst (k, v)). now apply in_map.
Qed.

(** **** The binning loop *)

Lemma bin_activities_bucket (mapping : list (string * list string))
    (resolved : list (Course * Activity * Location)) (k : string) :
  od_get (bin_activities mapping resolved) k []
  = od_get mapping k []
    ++ map block_of
         (List.filter (fun x => String.eqb (bucket_key x) k) resolved).
Proof.
  revert mapping. induction resolved as [|[[c a] l] rest IH]; intros mapping.
  - simpl. now rewrite app_nil_r.
  - cbn [bin_activities List.filter]. rewrite IH, od_get_od_set.
    unfold bucket_key at 2; cbn [fst snd].
    destruct (String.eqb (strftime_HM (start a)) k) eqn:Hk.
    + apply String.eqb_eq in Hk. subst k.
      rewrite <- app_assoc. reflexivity.
    + reflexivity.
Qed.

Lemma bin_activities_keys (mapping : list (string * list string))
    (resolved : list (Course * Activity * Location)) :
  map fst (bin_activities mapping resolved)
  = map fst mapping
    ++ Spec.first_seen (map fst mapping) (map bucket_key resolved).
Proof.
  revert mapping. induction resolved as [|[[c a] l] rest IH]; intros mapping.
  - simpl. now rewrite app_nil_r.
  - cbn [bin_activities map Spec.first_seen]. rewrite IH, od_set_keys.
    unfold bucket_key at 2; cbn [fst snd].
    destruct (existsb _ (map fst mapping)); [reflexivity|].
    now rewrite <- app_assoc.
Qed.

Lemma bin_activities_NoDup (mapping : list (string * list string))
    (resolved : list (Course * Activity * Location)) :
  List.NoDup (map fst mapping) ->
  List.NoDup (map fst (bin_activities mapping resolved)).
Proof.
  revert mapping. induction resolved as [|[[c a] l] rest IH]; intros mapping Hnd.
  - exact Hnd.
  - cbn [bin_activities]. apply IH. rewrite od_set_keys.
    destruct (existsb _ (map fst mapping)) eqn:He; [exact Hnd|].
    apply List.NoDup_app; repeat split.
    + exact Hnd.
    + constructor; [intros [] | constructor].
    + intros x Hx [<-|[]].
      apply existsb_eqb_In in Hx. congruence.
Qed.

(** C9: in the mapping the timeline is drawn from, the list of a start
    time holds the text blocks of the activities with that start time, in
    the order of the input list; the keys are the start times in
    first-seen order, each once. *)
Theorem C9_timeline_buckets_keep_input_order (config_dict : Config)
    (date : datetime) (activities : list (Course * Activity)) :
  let resolved := resolve_locations location_valid_for date activities in
  let mapping := bin_activities [] resolved in
  (forall k bucket,
     In (k, bucket) mapping ->
     bucket
     = map block_of
         (List.filter (fun x => String.eqb (bucket_key x) k) resolved))
  /\ map fst mapping = Spec.first_seen [] (map bucket_key resolved)
  /\ List.NoDup (map fst mapping)
  /\ (activities <> [] ->
      exists box_width,
        print_timeline' config_dict date activities
        = ([DrawTimeline 0 0 box_width 25 mapping; PrintFrame], inr tt)).
Proof.
  intros resolved mapping.
  assert (Hnd : List.NoDup (map fst mapping)).
  { apply bin_activities_NoDup. constructor. }
  split; [|split; [|split]].
  - intros k bucket Hin.
    rewrite <- (od_get_In mapping k bucket [] Hnd Hin).
    subst mapping. rewrite bin_activities_bucket. reflexivity.
  - subst mapping. rewrite bin_activities_keys. reflexivity.
  - exact Hnd.
  - intros Hne.
    destruct (print_timeline_nonempty config_dict date activities Hne)
      as (longest & Heq & _).
    exists (longest * 4). exact Heq.
Qed.

(** **** The text block *)

Lemma split_on_free (sep : ascii) (s : string) :
  Spec.free_of sep s -> split_on sep s = [s].
Proof.
  induction s as [|c s IH]; simpl; intros H.
  - reflexivity.
  - destruct H as [Hc Hs].
    destruct (Ascii.eqb_spec c sep) as [->|_]; [contradiction|].
    rewrite (IH Hs). reflexivity.
Qed.

Lemma split_on_append (sep : ascii) (a b : string) :
  Spec.free_of sep a ->
  split_on sep (a +:+ String sep b) = a :: split_on sep b.
Proof.
  induction a as [|c a IH]; intros H.
  - change (split_on sep (String sep b) = "" :: split_on sep b).
    simpl. now rewrite Ascii.eqb_refl.
  - destruct H as [Hc Ha].
    change (split_on sep (String c (a +:+ String sep b))
            = String c a :: split_on sep b).
    simpl. destruct (Ascii.eqb_spec c sep) as [->|_]; [contradiction|].
    rewrite (IH Ha). reflexivity.
Qed.

Lemma digit_not_newline (d : Z) : 0 <= d < 10 -> digit d <> newline.
Proof.
  intros H.
  assert (d = 0 \/ d = 1 \/ d = 2 \/ d = 3 \/ d = 4 \/ d = 5 \/ d = 6
          \/ d = 7 \/ d = 8 \/ d = 9) as Hd by lia.
  repeat (destruct Hd as [->|Hd]; [vm_compute; discriminate|]).
  subst d. vm_compute; discriminate.
Qed.

Lemma pad2_free_of_newline (n : Z) :
  0 <= n < 100 -> Spec.free_of newline (pad2 n).
Proof.
  intros H. unfold pad2. simpl. repeat split.
  - apply digit_not_newline. split.
    + apply Z.div_pos; lia.
    + apply Z.div_lt_upper_bound; lia.
  - apply digit_not_newline. apply Z.mod_pos_bound. lia.
Qed.

Lemma free_of_append (c : ascii) (a b : string) :
  Spec.free_of c a -> Spec.free_of c b -> Spec.free_of c (a +:+ b).
Proof.
  induction a as [|x a IH]; intros Ha Hb.
  - exact Hb.
  - destruct Ha as [Hx Ha].
    change (Spec.free_of c (String x (a +:+ b))). simpl. auto.
Qed.

Lemma strftime_HM_free_of_newline (t : time) :
  time_valid t -> Spec.free_of newline (strftime_HM t).
Proof.
  intros (Hh & Hm & _). unfold strftime_HM.
  apply free_of_append; [apply pad2_free_of_newline; lia|].
  apply free_of_append; [|apply pad2_free_of_newline; lia].
  simpl. split; [vm_compute; discriminate | exact I].
Qed.

Lemma activity_text_join (course : Course) (activity : Activity)
    (location : Location) :
  activity_text course activity location
  = join nl (block_lines course activity location).
Proof.
  unfold activity_text, block_lines, join.
  change ("" +:+ nl +:+ name activity +:+ nl +:+ place location +:+ nl
          +:+ strftime_HM (end_ activity))
    with (nl +:+ name activity +:+ nl +:+ place location +:+ nl
          +:+ strftime_HM (end_ activity)).
  reflexivity.
Qed.

Lemma activity_text_lines (course : Course) (activity : Activity)
    (location : Location) :
  Spec.free_of newline (title course) ->
  Spec.free_of newline (name activity) ->
  Spec.free_of newline (place location) ->
  time_valid (end_ activity) ->
  lines (activity_text course activity location)
  = block_lines course activity location.
Proof.
  intros Ht Hn Hp Hv. unfold lines, activity_text, block_lines, nl.
  change (title course
          +:+ String newline "" +:+ String newline "" +:+ name activity
          +:+ String newline "" +:+ place location
          +:+ String newline "" +:+ strftime_HM (end_ activity))
    with (title course
          +:+ String newline
                ("" +:+ String newline
                   (name activity
                    +:+ String newline
                          (place location
                           +:+ String newline (strftime_HM (end_ activity)))))).
  rewrite (split_on_append newline _ _ Ht).
  rewrite (split_on_append newline "" _ I).
  rewrite (split_on_append newline _ _ Hn).
  rewrite (split_on_append newline _ _ Hp).
  rewrite (split_on_free newline _ (strftime_HM_free_of_newline _ Hv)).
  reflexivity.
Qed.

(** C2 (amended): for every activity passed to the timeline layout the
    engine builds a text block of five lines, separated by four line
    breaks: the course title, an empty line, the activity name, the
    resolved place and the end time as HH:MM; the block is in the list
    that the drawn mapping holds for the activity's start time. *)
Theorem C2_timeline_block_has_five_lines (config_dict : Config)
    (date : datetime) (activities : list (Course * Activity))
    (course : Course) (activity : Activity) :
  In (course, activity) activities ->
  let location := location_valid_for activity date in
  let block := activity_text course activity location in
  (exists box_width mapping,
     print_timeline' config_dict date activities
     = ([DrawTimeline 0 0 box_width 25 mapping; PrintFrame], inr tt)
     /\ In block (od_get mapping (strftime_HM (start activity)) []))
  /\ block
     = title course +:+ nl +:+ "" +:+ nl +:+ name activity +:+ nl
       +:+ place location +:+ nl +:+ strftime_HM (end_ activity)
  /\ (Spec.free_of newline (title course) ->
      Spec.free_of newline (name activity) ->
      Spec.free_of newline (place location) ->
      time_valid (end_ activity) ->
      lines block
      = [title course; ""; name activity; place location;
         strftime_HM (end_ activity)]
      /\ length (lines block) = 5%nat).
Proof.
  intros Hin location block. split; [|split].
  - assert (Hne : activities <> []) by (intros ->; contradiction).
    destruct (print_timeline_nonempty config_dict date activities Hne)
      as (longest & Heq & _).
    eexists _, _. split; [exact Heq|].
    rewrite bin_activities_bucket. cbn [od_get app].
    change block with (block_of (course, activity, location)).
    apply in_map. apply filter_In. split.
    + unfold resolve_locations.
      change (course, activity, location)
        with ((fun '(course, activity) =>
                 (course, activity, location_valid_for activity date))
                (course, activity)).
      apply in_map. exact Hin.
    + apply String.eqb_refl.
  - reflexivity.
  - intros Ht Hn Hp Hv. subst block.
    rewrite (activity_text_lines course activity location Ht Hn Hp Hv).
    split; reflexivity.
Qed.

(** *** Date arithmetic *)

Lemma datetime_add_hours (date : datetime) (h k : Z) :
  datetime_valid date ->
  0 <= h -> 0 <= k -> h + k < 24 ->
  datetime_add (replace_hms date h 0 0) (td_hours k)
  = inr (mk_datetime (toordinal date)
           (mk_time (h + k) 0 0 (microsecond (time_of date)))).
Proof.
  intros [Hord (_ & _ & _ & Hus)] Hh Hk Hhk.
  unfold datetime_add, replace_hms, td_hours, td_days_of, td_seconds_of,
    td_microseconds_of, seconds_of_day, MAXORDINAL in *.
  cbn [toordinal time_of hour minute second microsecond total_microseconds].
  set (o := toordinal date) in *. set (u := microsecond (time_of date)) in *.
  set (total := (o * 86400 + (0 + 0 * 60 + h * 3600)) * 1000000 + u
                + k * 3600 * 1000000).
  assert (Hd : total / (86400 * 1000000) = o).
  { symmetry. apply (Z.div_unique _ _ _ ((h + k) * 3600 * 1000000 + u));
      subst total; lia. }
  assert (Hs : (total / 1000000) mod 86400 = (h + k) * 3600).
  { assert (total / 1000000 = o * 86400 + (h + k) * 3600) as ->.
    { symmetry. apply (Z.div_unique _ _ _ u); subst total; lia. }
    symmetry. apply (Z.mod_unique _ _ o); lia. }
  assert (Hu : total mod 1000000 = u).
  { symmetry. apply (Z.mod_unique _ _ (o * 86400 + (h + k) * 3600));
      subst total; lia. }
  rewrite Hd, Hs, Hu.
  replace ((0 <? o) && (o <=? 3652059)) with true
    by (symmetry; apply andb_true_iff; split;
        [apply Z.ltb_lt | apply Z.leb_le]; lia).
  f_equal. f_equal. f_equal.
  - symmetry. apply (Z.div_unique _ _ _ 0); lia.
  - replace ((h + k) * 3600 mod 3600) with 0
      by (apply (Z.mod_unique _ _ (h + k)); lia).
    reflexivity.
  - replace ((h + k) * 3600 mod 3600) with 0
      by (apply (Z.mod_unique _ _ (h + k)); lia).
    reflexivity.
Qed.

Lemma datetime_add_days (date : datetime) (d : Z) :
  datetime_valid date ->
  1 <= toordinal date + d <= MAXORDINAL ->
  datetime_add date (td_days d)
  = inr (mk_datetime (toordinal date + d) (time_of date)).
Proof.
  intros [Hord (Hh & Hm & Hs & Hus)] Hd.
  unfold datetime_add, td_days, td_days_of, td_seconds_of,
    td_microseconds_of, seconds_of_day, MAXORDINAL in *.
  cbn [total_microseconds].
  destruct date as [o [h m s u]].
  cbn [toordinal time_of hour minute second microsecond] in *.
  set (secs := s + m * 60 + h * 3600).
  assert (Hsecs : 0 <= secs < 86400) by (subst secs; lia).
  set (total := (o * 86400 + secs) * 1000000 + u + d * 86400 * 1000000).
  assert (Hdays : total / (86400 * 1000000) = o + d).
  { symmetry. apply (Z.div_unique _ _ _ (secs * 1000000 + u));
      subst total; lia. }
  assert (Hsec : (total / 1000000) mod 86400 = secs).
  { assert (total / 1000000 = (o + d) * 86400 + secs) as ->.
    { symmetry. apply (Z.div_unique _ _ _ u); subst total; lia. }
    symmetry. apply (Z.mod_unique _ _ (o + d)); lia. }
  assert (Hu : total mod 1000000 = u).
  { symmetry. apply (Z.mod_unique _ _ ((o + d) * 86400 + secs));
      subst total; lia. }
  rewrite Hdays, Hsec, Hu.
  replace ((0 <? o + d) && (o + d <=? 3652059)) with true
    by (symmetry; apply andb_true_iff; split;
        [apply Z.ltb_lt | apply Z.leb_le]; lia).
  assert (H1 : secs / 3600 = h).
  { symmetry. apply (Z.div_unique _ _ _ (s + m * 60)); subst secs; lia. }
  assert (H2 : secs mod 3600 = s + m * 60).
  { symmetry. apply (Z.mod_unique _ _ h); subst secs; lia. }
  rewrite H1, H2.
  assert (H3 : (s + m * 60) / 60 = m).
  { symmetry. apply (Z.div_unique _ _ _ s); lia. }
  assert (H4 : (s + m * 60) mod 60 = s).
  { symmetry. apply (Z.mod_unique _ _ m); lia. }
  rewrite H3, H4. reflexivity.
Qed.

(** The shift to a weekday of the same week never leaves the calendar. *)
Lemma find_day_of_week_valid (date : datetime) (day_ : Z) :
  datetime_valid date -> 0 <= day_ <= 4 ->
  find_day_of_week date day_
  = ret (mk_datetime (toordinal date + (day_ - weekday date)) (time_of date)).
Proof.
  intros Hv Hd. unfold find_day_of_week, ret, lift. f_equal.
  apply datetime_add_days; [exact Hv|].
  destruct Hv as [Hord _]. unfold weekday, MAXORDINAL in *.
  pose proof (Z.div_mod (toordinal date + 6) 7 ltac:(lia)) as Hdm.
  pose proof (Z.mod_pos_bound (toordinal date + 6) 7 ltac:(lia)) as Hb.
  lia.
Qed.

Lemma week_activities_valid (date : datetime) (courses : list Course)
    (selected_activities : Selection) :
  datetime_valid date ->
  week_activities Selection activities_on date courses selected_activities
  = ret (concat (map (fun d => activities_on courses d selected_activities)
                   (week_dates date))).
Proof.
  intros Hv. unfold week_activities.
  change (seqZ MONDAY (SATURDAY - MONDAY)) with [0; 1; 2; 3; 4].
  cbn [map_M].
  rewrite !(find_day_of_week_valid date _ Hv) by lia.
  rewrite !bind_ret. reflexivity.
Qed.

(** *** The week view *)

(** C10: the week view prints its header first, whatever happens next;
    when the union of the week's activities is empty the header is the
    whole output, nothing is drawn and the view ends normally. *)
Theorem C10_week_header_printed_for_empty_week
    (config_dict : Config) (courses : list Course)
    (selected_activities : Selection) (args : Args) (now : datetime) :
  let date := date_of_args args now in
  (exists rest result,
     show_week' config_dict courses selected_activities args now
     = (Print (week_header date) :: rest, result))
  /\ (datetime_valid date ->
      week_union' date courses selected_activities = [] ->
      show_week' config_dict courses selected_activities args now
      = ([Print (week_header date)], inr tt)).
Proof.
  intros date. split.
  - unfold show_week, print. rewrite bind_emit. eexists _, _. reflexivity.
  - intros Hv Hempty. unfold show_week, print. rewrite bind_emit.
    fold date. unfold print_week_timetable.
    rewrite (week_activities_valid date courses selected_activities Hv).
    rewrite bind_ret. fold (week_union' date courses selected_activities).
    rewrite Hempty. reflexivity.
Qed.

Lemma bind_assoc {A B C} (m : M A) (k : A -> M B) (k' : B -> M C) :
  bind (bind m k) k' = bind m (fun x => bind (k x) k').
Proof.
  destruct m as [t [e|a]]; [reflexivity|].
  unfold bind. destruct (k a) as [t1 [e1|b]]; [reflexivity|].
  destruct (k' b) as [t2 r2]. now rewrite app_assoc.
Qed.

Lemma bind_ext {A B} (m : M A) (k1 k2 : A -> M B) :
  (forall x, k1 x = k2 x) -> bind m k1 = bind m k2.
Proof.
  intros H. destruct m as [t [e|a]]; [reflexivity|].
  unfold bind. now rewrite H.
Qed.

Lemma bind_ret_r {A} (m : M A) : bind m ret = m.
Proof.
  destruct m as [t [e|a]]; [reflexivity|].
  unfold bind, ret. now rewrite app_nil_r.
Qed.

Lemma for_each_app {A S} (l1 l2 : list A) (body : S -> A -> M S) (acc : S) :
  for_each (l1 ++ l2) body acc
  = bind (for_each l1 body acc) (for_each l2 body).
Proof.
  revert acc. induction l1 as [|x l1 IH]; intros acc; simpl.
  - now rewrite bind_ret.
  - rewrite bind_assoc. apply bind_ext. intros acc'. apply IH.
Qed.

Lemma time_ltb_lt (a b : time) : time_ltb a b = true <-> time_lt a b.
Proof.
  unfold time_ltb, time_lt.
  rewrite !orb_true_iff, !andb_true_iff, !orb_true_iff, !andb_true_iff,
    !orb_true_iff, !andb_true_iff, !Z.ltb_lt, !Z.eqb_eq.
  reflexivity.
Qed.

Lemma time_ltb_ge (a b : time) : time_ltb a b = false <-> ~ time_lt a b.
Proof.
  rewrite <- time_ltb_lt. destruct (time_ltb a b); split; congruence.
Qed.

Lemma fold_min_by {A} (key : A -> time) (l : list A) (x : A) :
  let m := fold_left
             (fun best y => if time_ltb (key y) (key best) then y else best)
             l x in
  In m (x :: l) /\ forall y, In y (x :: l) -> ~ time_lt (key y) (key m).
Proof.
  revert x. induction l as [|z l IH]; intros x; cbn [fold_left].
  - split; [left; reflexivity|].
    intros y [<-|[]]. unfold time_lt. lia.
  - destruct (time_ltb (key z) (key x)) eqn:Hz.
    + destruct (IH z) as [Hin Hle]. split; [destruct Hin; simpl; auto|].
      intros y [<-|Hy]; [|apply Hle; exact Hy].
      apply time_ltb_lt in Hz.
      pose proof (Hle z (or_introl eq_refl)) as Hzm.
      unfold time_lt in *. lia.
    + destruct (IH x) as [Hin Hle]. split; [destruct Hin; simpl; auto|].
      intros y [<-|[<-|Hy]].
      * apply Hle. left; reflexivity.
      * apply time_ltb_ge in Hz.
        pose proof (Hle x (or_introl eq_refl)) as Hxm.
        unfold time_lt in *. lia.
      * apply Hle. right; exact Hy.
Qed.

Lemma fold_max_by {A} (key : A -> time) (l : list A) (x : A) :
  let m := fold_left
             (fun best y => if time_ltb (key best) (key y) then y else best)
             l x in
  In m (x :: l) /\ forall y, In y (x :: l) -> ~ time_lt (key m) (key y).
Proof.
  revert x. induction l as [|z l IH]; intros x; cbn [fold_left].
  - split; [left; reflexivity|].
    intros y [<-|[]]. unfold time_lt. lia.
  - destruct (time_ltb (key x) (key z)) eqn:Hz.
    + destruct (IH z) as [Hin Hle]. split; [destruct Hin; simpl; auto|].
      intros y [<-|Hy]; [|apply Hle; exact Hy].
      apply time_ltb_lt in Hz.
      pose proof (Hle z (or_introl eq_refl)) as Hzm.
      unfold time_lt in *. lia.
    + destruct (IH x) as [Hin Hle]. split; [destruct Hin; simpl; auto|].
      intros y [<-|[<-|Hy]].
      * apply Hle. left; reflexivity.
      * apply time_ltb_ge in Hz.
        pose proof (Hle x (or_introl eq_refl)) as Hxm.
        unfold time_lt in *. lia.
      * apply Hle. right; exact Hy.
Qed.

(** [min(l, key=...)] on a non-empty list: an element of the list that no
    element precedes. *)
Lemma py_min_by_spec {A} (key : A -> time) (l : list A) :
  l <> [] ->
  exists m, py_min_by key l = ret m /\ In m l
            /\ forall y, In y l -> time_ltb (key y) (key m) = false.
Proof.
  intros Hne. destruct l as [|x l]; [contradiction|].
  eexists. split; [reflexivity|].
  destruct (fold_min_by key l x) as [Hin Hle]. split; [exact Hin|].
  intros y Hy. apply time_ltb_ge. apply Hle. exact Hy.
Qed.

Lemma py_max_by_spec {A} (key : A -> time) (l : list A) :
  l <> [] ->
  exists m, py_max_by key l = ret m /\ In m l
            /\ forall y, In y l -> time_ltb (key m) (key y) = false.
Proof.
  intros Hne. destruct l as [|x l]; [contradiction|].
  eexists. split; [reflexivity|].
  destruct (fold_max_by key l x) as [Hin Hle]. split; [exact Hin|].
  intros y Hy. apply time_ltb_ge. apply Hle. exact Hy.
Qed.

(** An activity that does not reach a later clock hour leaves the cells as
    they are. *)
Lemma render_activity_no_hours (date : datetime) (rendered_activities : cells)
    (course : Course) (activity : Activity) :
  hour (end_ activity) - hour (start activity) <= 0 ->
  render_activity date rendered_activities (course, activity)
  = ret rendered_activities.
Proof.
  intros H. unfold render_activity, range. rewrite seqZ_nil by exact H.
  reflexivity.
Qed.

(** *** The hour range and its rounding *)

(** A latest end time with a minute or second component makes the
    rounding raise: a [datetime.time] cannot be added to a [timedelta]. *)
Lemma round_up_latest_raises (latest_time : time) :
  minute latest_time + second latest_time > 0 ->
  round_up_latest latest_time = raise TypeError.
Proof.
  intros H. unfold round_up_latest.
  replace (minute latest_time + second latest_time >? 0) with true
    by (symmetry; apply Z.gtb_lt; lia).
  reflexivity.
Qed.

(** A latest end time on the hour is kept. *)
Lemma round_up_latest_on_the_hour (latest_time : time) :
  minute latest_time + second latest_time <= 0 ->
  round_up_latest latest_time = ret latest_time.
Proof.
  intros H. unfold round_up_latest.
  replace (minute latest_time + second latest_time >? 0) with false
    by (symmetry; rewrite Z.gtb_ltb; apply Z.ltb_ge; lia).
  reflexivity.
Qed.

(** The week grid of a week whose latest end has a minute or second
    component: nothing is drawn, the run stops with [TypeError]. *)
Lemma print_week_timetable_round_up_raises (config_dict : Config)
    (date : datetime) (courses : list Course)
    (selected_activities : Selection) (last_ : Course * Activity) :
  datetime_valid date ->
  py_max_by (fun act => end_ (snd act))
    (week_union' date courses selected_activities) = ret last_ ->
  minute (end_ (snd last_)) + second (end_ (snd last_)) > 0 ->
  print_week_timetable' config_dict date courses selected_activities
  = ([], inl TypeError).
Proof.
  intros Hv Hmax Hround. unfold print_week_timetable.
  rewrite (week_activities_valid date courses selected_activities Hv).
  rewrite bind_ret. fold (week_union' date courses selected_activities).
  destruct (week_union' date courses selected_activities) as [|p rest] eqn:Hu;
    [discriminate|].
  replace (Z.of_nat (length (p :: rest)) =? 0) with false
    by (symmetry; apply Z.eqb_neq; simpl; lia).
  destruct (py_min_by_spec (fun act => start (snd act)) (p :: rest)
              ltac:(discriminate)) as (first & Hmin & _).
  rewrite Hmin, bind_ret, Hmax, bind_ret.
  rewrite (round_up_latest_raises _ Hround). reflexivity.
Qed.

(** *** The cache rewrite *)

Lemma dumps_app (t1 t2 : list effect) :
  dumps (t1 ++ t2) = (dumps t1 + dumps t2)%nat.
Proof. unfold dumps. now rewrite List.filter_app, length_app. Qed.

Lemma quiet_ret {A} (a : A) : quiet (ret a).
Proof. reflexivity. Qed.

Lemma quiet_raise {A} (e : exn) : quiet (@raise A e).
Proof. reflexivity. Qed.

Lemma quiet_lift {A} (r : exn + A) : quiet (lift r).
Proof. reflexivity. Qed.

Lemma quiet_bind {A B} (m : M A) (k : A -> M B) :
  quiet m -> (forall a, quiet (k a)) -> quiet (bind m k).
Proof.
  unfold quiet. intros Hm Hk. destruct m as [t [e|a]]; [exact Hm|].
  rewrite bind_value. cbn [trace fst] in *. rewrite dumps_app, Hm.
  apply Hk.
Qed.

Lemma quiet_for_each {A S} (l : list A) (body : S -> A -> M S) (acc : S) :
  (forall acc x, quiet (body acc x)) -> quiet (for_each l body acc).
Proof.
  intros Hb. revert acc. induction l as [|x l IH]; intros acc; simpl.
  - apply quiet_ret.
  - apply quiet_bind; [apply Hb | exact IH].
Qed.

Lemma quiet_map_M {A B} (f : A -> M B) (l : list A) :
  (forall x, quiet (f x)) -> quiet (map_M f l).
Proof.
  intros Hf. induction l as [|x l IH]; simpl.
  - apply quiet_ret.
  - apply quiet_bind; [apply Hf|]. intros y.
    apply quiet_bind; [exact IH|]. intros ys. apply quiet_ret.
Qed.

Ltac quiet_step :=
  match goal with
  | |- quiet (bind _ _) => apply quiet_bind; [|intros ?]
  | |- quiet (ret _) => apply quiet_ret
  | |- quiet (raise _) => apply quiet_raise
  | |- quiet (lift _) => apply quiet_lift
  | |- quiet (emit _) => reflexivity
  | |- quiet (print _) => reflexivity
  | |- quiet (for_each _ _ _) => apply quiet_for_each; intros ? ?
  | |- quiet (map_M _ _) => apply quiet_map_M; intros ?
  | |- quiet (if ?b then _ else _) => destruct b
  | |- quiet (match ?x with _ => _ end) => destruct x
  | |- quiet ((match ?x with _ => _ end) _) => destruct x
  end.

Lemma quiet_print_activity config_dict date course activity :
  quiet (print_activity' config_dict date course activity).
Proof. reflexivity. Qed.

Lemma quiet_print_timeline config_dict date activities :
  quiet (print_timeline' config_dict date activities).
Proof.
  unfold print_timeline, py_max. repeat quiet_step.
Qed.

Lemma quiet_print_week_timetable config_dict date courses
    selected_activities :
  quiet (print_week_timetable' config_dict date courses selected_activities).
Proof.
  unfold print_week_timetable, week_activities, find_day_of_week, py_min_by,
    py_max_by, round_up_latest, render_activities, render_activity,
    render_rows.
  repeat quiet_step.
Qed.

Lemma quiet_show_week config_dict courses selected_activities args now :
  quiet (show_week' config_dict courses selected_activities args now).
Proof.
  unfold show_week. apply quiet_bind; [reflexivity|]. intros _.
  apply quiet_print_week_timetable.
Qed.

Lemma quiet_show_timetable config_dict courses selected_activities args now :
  quiet (show_timetable' config_dict courses selected_activities args now).
Proof.
  unfold show_timetable. apply quiet_bind; [reflexivity|]. intros _.
  destruct (arg_timeline args); [apply quiet_print_timeline|].
  apply quiet_for_each. intros _ [course activity].
  apply quiet_print_activity.
Qed.

Lemma quiet_show_next config_dict courses selected_activities args now :
  quiet (show_next' config_dict courses selected_activities args now).
Proof.
  unfold show_next.
  destruct (next_activity _ now) as [[course act]|]; [|apply quiet_ret].
  destruct (arg_time args); reflexivity.
Qed.

(** The callback found is one of the three views. *)
Lemma find_callback_cases (arguments : Args)
    (callback : Callback Config Selection) :
  find_callback' arguments = ret callback ->
  callback = show_week' \/ callback = show_timetable'
  \/ callback = show_next'.
Proof.
  unfold find_callback, COMMAND_MAP, ret, raise. cbn [List.find].
  change (arg_command arguments "week") with (arg_week arguments).
  change (arg_command arguments "show") with (arg_show arguments).
  change (arg_command arguments "next") with (arg_next arguments).
  destruct (arg_week arguments); [intros H; inversion H; auto|].
  destruct (arg_show arguments); [intros H; inversion H; auto|].
  destruct (arg_next arguments); [intros H; inversion H; auto|].
  discriminate.
Qed.

(** C7: when the view flow of a run completes (the course list was
    loaded, the view ran to its end), the course list the run worked on is
    written back exactly once, after everything the view did, whichever
    view ran and whatever it printed; with a data file and without
    [--drop-cache] the list written is the cached list itself,
    unchanged. *)
Theorem C7_cache_rewritten_once_after_view
    (arguments : Args) (data : option (list Course)) (config_dict : Config)
    (now : datetime) (callback : Callback Config Selection)
    (courses : list Course) :
  let selected_activities := get_selected_activities config_dict courses in
  let view := callback config_dict courses selected_activities arguments now in
  load_courses' arguments data config_dict = ret courses ->
  find_callback' arguments = ret callback ->
  completes view ->
  main' arguments data config_dict now
  = (trace view ++ [PickleDump courses], inr tt)
  /\ dumps (trace (main' arguments data config_dict now)) = 1%nat
  /\ dumps (trace view) = 0%nat
  /\ (forall cached,
        data = Some cached -> arg_drop_cache arguments = false ->
        courses = cached).
Proof.
  intros selected_activities view Hload Hfind [[] Hdone].
  assert (Hquiet : quiet view).
  { destruct (find_callback_cases arguments callback Hfind) as [->|[->| ->]].
    - apply quiet_show_week.
    - apply quiet_show_timetable.
    - apply quiet_show_next. }
  assert (Hmain : main' arguments data config_dict now
                  = (trace view ++ [PickleDump courses], inr tt)).
  { unfold main. rewrite Hload, bind_ret. fold selected_activities.
    rewrite Hfind, bind_ret. fold view.
    rewrite (M_eta view), Hdone, bind_value. reflexivity. }
  split; [exact Hmain|]. split; [|split].
  - rewrite Hmain. cbn [trace fst]. rewrite dumps_app, Hquiet. reflexivity.
  - exact Hquiet.
  - intros cached -> Hdrop. unfold load_courses in Hload.
    rewrite Hdrop in Hload. unfold ret in Hload. now inversion Hload.
Qed.

(** *** The week grid when the latest end is on the hour *)

Lemma for_each_pure {A S} (l : list A) (body : S -> A -> M S)
    (f : S -> A -> S) (acc : S) :
  (forall acc x, In x l -> body acc x = ret (f acc x)) ->
  for_each l body acc = ret (fold_left f l acc).
Proof.
  revert acc. induction l as [|x l IH]; intros acc Hb; simpl.
  - reflexivity.
  - rewrite (Hb acc x) by (left; reflexivity). rewrite bind_ret.
    apply IH. intros acc' y Hy. apply Hb. right; exact Hy.
Qed.

Lemma In_range (k n : Z) : In k (range n) <-> 0 <= k < n.
Proof.
  unfold range. rewrite <- list_elem_of_In, elem_of_seqZ. lia.
Qed.

Lemma render_activity_valid (date : datetime) (d : cells)
    (ca : Course * Activity) :
  datetime_valid date ->
  time_valid (start (snd ca)) -> time_valid (end_ (snd ca)) ->
  render_activity date d ca = ret (fill_activity date d ca).
Proof.
  intros Hv Hs He. destruct ca as [course activity]. cbn [fst snd] in *.
  unfold render_activity, fill_activity. cbn [fst snd].
  apply for_each_pure. intros acc k Hk. apply In_range in Hk.
  destruct Hs as (Hsh & _). destruct He as (Heh & _).
  rewrite (datetime_add_hours date _ k Hv) by lia.
  rewrite bind_lift_inr. reflexivity.
Qed.

Lemma render_activities_valid (date : datetime)
    (day_activities : list (Course * Activity)) :
  datetime_valid date ->
  (forall ca, In ca day_activities ->
              time_valid (start (snd ca)) /\ time_valid (end_ (snd ca))) ->
  render_activities date day_activities
  = ret (fill_activities date day_activities).
Proof.
  intros Hv Hall. unfold render_activities, fill_activities.
  apply for_each_pure. intros acc ca Hin.
  destruct (Hall ca Hin) as [Hs He].
  apply render_activity_valid; assumption.
Qed.

Lemma dd_getitem_spec (d : cells) (key : Z * time) :
  exists d', dd_getitem d key = (dd_lookup d key, d') /\ same_cells d d'.
Proof.
  unfold dd_getitem, dd_lookup, same_cells.
  destruct (d !! key) as [l|] eqn:Hk.
  - exists d. split; reflexivity.
  - exists (<[key := []]> d). split; [reflexivity|].
    intros key'. unfold dd_lookup.
    destruct (decide (key = key')) as [<-|Hne].
    + rewrite lookup_insert_eq, Hk. reflexivity.
    + rewrite lookup_insert_ne by exact Hne. reflexivity.
Qed.

Lemma render_row_cells_fold (dt : time) (days : list Z)
    (row : list string) (d0 d : cells) :
  same_cells d0 d ->
  exists d',
    fold_left
      (fun '(row, d) day_ =>
         let '(l, d') := dd_getitem d (day_, dt) in (row ++ [join nl l], d'))
      days (row, d)
    = (row ++ map (fun day_ => join nl (dd_lookup d0 (day_, dt))) days, d')
    /\ same_cells d0 d'.
Proof.
  revert row d. induction days as [|day_ days IH]; intros row d Hsame.
  - exists d. cbn [fold_left map]. rewrite app_nil_r. split; [reflexivity|].
    exact Hsame.
  - cbn [fold_left map].
    destruct (dd_getitem_spec d (day_, dt)) as (d1 & Hget & Hs1).
    rewrite Hget.
    assert (Hsame1 : same_cells d0 d1).
    { intros key. rewrite Hs1. apply Hsame. }
    destruct (IH (row ++ [join nl (dd_lookup d (day_, dt))]) d1 Hsame1)
      as (d' & Hfold & Hs').
    exists d'. rewrite Hfold. rewrite <- app_assoc. cbn [app].
    rewrite Hsame. split; [reflexivity | exact Hs'].
Qed.

Lemma render_row_cells_spec (dt : time) (d0 d : cells) :
  same_cells d0 d ->
  exists d',
    render_row_cells dt d
    = (map (fun day_ => join nl (dd_lookup d0 (day_, dt))) [0; 1; 2; 3; 4], d')
    /\ same_cells d0 d'.
Proof.
  intros Hsame. unfold render_row_cells.
  change (range (Z.of_nat (length day_name) - 2)) with [0; 1; 2; 3; 4].
  destruct (render_row_cells_fold dt [0; 1; 2; 3; 4] [] d0 d Hsame)
    as (d' & Hfold & Hs').
  exists d'. rewrite Hfold. split; [reflexivity | exact Hs'].
Qed.

Lemma render_rows_fold (date : datetime) (e : Z) (ks : list Z)
    (rows : list (list string)) (d0 d : cells) :
  same_cells d0 d ->
  fst (fold_left
         (fun '(rows, d) k =>
            let '(cs, d') := render_row_cells (hour_slot date (e + k)) d in
            (rows ++ [strftime_HM (hour_slot date (e + k)) :: cs], d'))
         ks (rows, d))
  = rows ++ map (fun k => grid_row date d0 (e + k)) ks.
Proof.
  revert rows d. induction ks as [|k ks IH]; intros rows d Hsame.
  - cbn [fold_left map fst]. now rewrite app_nil_r.
  - cbn [fold_left map].
    destruct (render_row_cells_spec (hour_slot date (e + k)) d0 d Hsame)
      as (d' & Hrow & Hs').
    rewrite Hrow, (IH _ d' Hs'), <- app_assoc. reflexivity.
Qed.

Lemma render_rows_valid (date : datetime) (earliest_time latest_time : time)
    (d : cells) :
  datetime_valid date ->
  0 <= hour earliest_time -> hour latest_time < 24 ->
  render_rows date earliest_time latest_time d
  = ret (map (grid_row date d)
           (seqZ (hour earliest_time)
              (hour latest_time - hour earliest_time))).
Proof.
  intros Hv He Hl. unfold render_rows.
  rewrite (for_each_pure _ _
             (fun '(rows, d) k =>
                let '(cs, d') :=
                  render_row_cells (hour_slot date (hour earliest_time + k)) d
                in (rows ++ [strftime_HM (hour_slot date (hour earliest_time + k))
                             :: cs], d'))).
  - rewrite bind_ret.
    rewrite (render_rows_fold date (hour earliest_time) _ [] d d)
      by (intros key; reflexivity).
    cbn [app].
    replace (seqZ (hour earliest_time) (hour latest_time - hour earliest_time))
      with (map (Z.add (hour earliest_time))
              (range (hour latest_time - hour earliest_time))).
    + rewrite map_map. reflexivity.
    + unfold range.
      pose proof (fmap_add_seqZ (hour earliest_time) 0
                    (hour latest_time - hour earliest_time)) as H.
      rewrite Z.add_0_r in H. exact H.
  - intros [rows d1] k Hk. apply In_range in Hk.
    rewrite (datetime_add_hours date _ k Hv) by lia.
    rewrite bind_lift_inr. cbn [time_of]. fold (hour_slot date (hour earliest_time + k)).
    destruct (render_row_cells _ d1). reflexivity.
Qed.

(** The week grid of a week whose latest end is on the hour: the header
    row, then one row per hour from the hour of the earliest start up to,
    and not including, the hour of the latest end, in ascending order. *)
Lemma print_week_timetable_on_the_hour (config_dict : Config)
    (date : datetime) (courses : list Course)
    (selected_activities : Selection) (first last_ : Course * Activity) :
  let day_activities := week_union' date courses selected_activities in
  datetime_valid date ->
  (forall ca, In ca day_activities ->
              time_valid (start (snd ca)) /\ time_valid (end_ (snd ca))) ->
  py_min_by (fun act => start (snd act)) day_activities = ret first ->
  py_max_by (fun act => end_ (snd act)) day_activities = ret last_ ->
  minute (end_ (snd last_)) + second (end_ (snd last_)) <= 0 ->
  print_week_timetable' config_dict date courses selected_activities
  = ([DrawTable 0 0
        (["";  "Monday"; "Tuesday"; "Wednesday"; "Thursday"; "Friday"]
         :: map (grid_row date (fill_activities date day_activities))
              (seqZ (hour (start (snd first)))
                 (hour (end_ (snd last_)) - hour (start (snd first)))));
      PrintFrame], inr tt).
Proof.
  intros day_activities Hv Hall Hmin Hmax Hhour.
  unfold print_week_timetable.
  rewrite (week_activities_valid date courses selected_activities Hv).
  rewrite bind_ret. fold (week_union' date courses selected_activities).
  fold day_activities.
  destruct day_activities as [|p rest] eqn:Hu; [discriminate|].
  replace (Z.of_nat (length (p :: rest)) =? 0) with false
    by (symmetry; apply Z.eqb_neq; simpl; lia).
  destruct (py_min_by_spec (fun act => start (snd act)) (p :: rest)
              ltac:(discriminate)) as (first' & Hmin' & Hfin & _).
  destruct (py_max_by_spec (fun act => end_ (snd act)) (p :: rest)
              ltac:(discriminate)) as (last' & Hmax' & Hlin & _).
  assert (first' = first) as ->
    by (rewrite Hmin in Hmin'; unfold ret in Hmin'; congruence).
  assert (last' = last_) as ->
    by (rewrite Hmax in Hmax'; unfold ret in Hmax'; congruence).
  rewrite Hmin, bind_ret, Hmax, bind_ret.
  rewrite (round_up_latest_on_the_hour _ Hhour), bind_ret.
  rewrite (render_activities_valid date (p :: rest) Hv Hall), bind_ret.
  destruct (Hall first Hfin) as [(Hfh & _) _].
  destruct (Hall last_ Hlin) as [_ (Hlh & _)].
  rewrite render_rows_valid; [|exact Hv|cbn [hour time_replace_minute_second]; lia..].
  rewrite bind_ret, !bind_emit. reflexivity.
Qed.

(** *** Activities within one clock hour *)

Lemma fill_activities_skip (date : datetime)
    (before after : list (Course * Activity))
    (course : Course) (activity : Activity) :
  hour (end_ activity) - hour (start activity) <= 0 ->
  fill_activities date (before ++ (course, activity) :: after)
  = fill_activities date (before ++ after).
Proof.
  intros H. unfold fill_activities. rewrite !fold_left_app.
  cbn [fold_left]. f_equal.
  unfold fill_activity, range. cbn [fst snd].
  rewrite seqZ_nil by exact H. reflexivity.
Qed.

(** C8: an activity whose end hour equals its start hour adds nothing to
    any cell: the cells built from the week's activities are those built
    without it.  It still takes part in the hour range of the grid: the
    earliest start and the latest end are taken over the whole week, the
    activity included, so the earliest start is not after its start and the
    latest end not before its end; the table the builder draws has its rows
    from the hour of that earliest start to the hour of that latest end,
    with the cells of the week without the activity, and when that latest
    end is off the hour the builder stops with [TypeError]. *)
Theorem C8_same_hour_activity_fills_no_cell (date : datetime)
    (before after : list (Course * Activity))
    (course : Course) (activity : Activity) :
  hour (end_ activity) = hour (start activity) ->
  let day_activities := before ++ (course, activity) :: after in
  (forall rendered_activities,
     render_activity date rendered_activities (course, activity)
     = ret rendered_activities)
  /\ render_activities date day_activities
     = render_activities date (before ++ after)
  /\ exists first last_,
       py_min_by (fun act => start (snd act)) day_activities = ret first
       /\ py_max_by (fun act => end_ (snd act)) day_activities = ret last_
       /\ time_ltb (start activity) (start (snd first)) = false
       /\ time_ltb (end_ (snd last_)) (end_ activity) = false
       /\ hour (start (snd first)) <= hour (start activity)
       /\ hour (end_ activity) <= hour (end_ (snd last_))
       /\ forall config_dict courses selected_activities,
            datetime_valid date ->
            week_union' date courses selected_activities = day_activities ->
            (forall ca, In ca day_activities ->
               time_valid (start (snd ca)) /\ time_valid (end_ (snd ca))) ->
            (minute (end_ (snd last_)) + second (end_ (snd last_)) <= 0 ->
             print_week_timetable' config_dict date courses
               selected_activities
             = ([DrawTable 0 0
                   ([""; "Monday"; "Tuesday"; "Wednesday"; "Thursday";
                     "Friday"]
                    :: map (grid_row date
                              (fill_activities date (before ++ after)))
                         (seqZ (hour (start (snd first)))
                            (hour (end_ (snd last_))
                             - hour (start (snd first)))));
                 PrintFrame], inr tt))
            /\ (minute (end_ (snd last_)) + second (end_ (snd last_)) > 0 ->
                print_week_timetable' config_dict date courses
                  selected_activities
                = ([], inl TypeError)).
Proof.
  intros Hh day_activities.
  assert (Hstep : forall rendered_activities,
             render_activity date rendered_activities (course, activity)
             = ret rendered_activities).
  { intros d. apply render_activity_no_hours. lia. }
  split; [exact Hstep|]. split.
  - unfold render_activities, day_activities.
    rewrite !for_each_app. apply bind_ext. intros d.
    cbn [for_each]. rewrite Hstep, bind_ret. reflexivity.
  - assert (Hne : day_activities <> []).
    { unfold day_activities. intros H. destruct before; discriminate. }
    assert (Hin : In (course, activity) day_activities).
    { unfold day_activities. apply in_or_app. right; left; reflexivity. }
    destruct (py_min_by_spec (fun act => start (snd act)) day_activities Hne)
      as (first & Hmin & _ & Hle).
    destruct (py_max_by_spec (fun act => end_ (snd act)) day_activities Hne)
      as (last_ & Hmax & _ & Hge).
    pose proof (Hle _ Hin) as H1. pose proof (Hge _ Hin) as H2.
    cbn [snd] in H1, H2.
    exists first, last_.
    split; [exact Hmin|]. split; [exact Hmax|].
    split; [exact H1|]. split; [exact H2|].
    apply time_ltb_ge in H1. apply time_ltb_ge in H2.
    split; [unfold time_lt in H1; lia|].
    split; [unfold time_lt in H2; lia|].
    intros config_dict courses selected_activities Hv Hu Hall. split.
    + intros Hhour.
      rewrite (print_week_timetable_on_the_hour config_dict date courses
                 selected_activities first last_ Hv);
        rewrite ?Hu; try assumption.
      unfold day_activities at 1.
      rewrite (fill_activities_skip date before after course activity)
        by lia.
      reflexivity.
    + intros Hround.
      apply (print_week_timetable_round_up_raises config_dict date courses
               selected_activities last_ Hv);
        rewrite ?Hu; assumption.
Qed.

(** *** The days of the week of a date *)

Lemma datetime_add_days_cases (date : datetime) (d : Z) :
  datetime_valid date ->
  datetime_add date (td_days d)
  = if (0 <? toordinal date + d) && (toordinal date + d <=? MAXORDINAL)
    then inr (mk_datetime (toordinal date + d) (time_of date))
    else inl OverflowError.
Proof.
  intros Hv.
  destruct ((0 <? toordinal date + d) && (toordinal date + d <=? MAXORDINAL))
    eqn:Hc.
  - apply andb_true_iff in Hc. destruct Hc as [H1 H2].
    apply Z.ltb_lt in H1. apply Z.leb_le in H2.
    apply datetime_add_days; [exact Hv | lia].
  - destruct Hv as [Hord (Hh & Hm & Hs & Hus)].
    unfold datetime_add, td_days, td_days_of, seconds_of_day in *.
    cbn [total_microseconds].
    set (secs := second (time_of date) + minute (time_of date) * 60
                 + hour (time_of date) * 3600).
    assert (Hsecs : 0 <= secs < 86400) by (subst secs; lia).
    set (total := (toordinal date * 86400 + secs) * 1000000
                  + microsecond (time_of date) + d * 86400 * 1000000).
    assert (Hdays : total / (86400 * 1000000) = toordinal date + d).
    { symmetry.
      apply (Z.div_unique _ _ _ (secs * 1000000 + microsecond (time_of date)));
        subst total; lia. }
    rewrite Hdays, Hc. reflexivity.
Qed.

Lemma weekday_shift (date : datetime) (k : Z) :
  0 <= k <= 6 ->
  (toordinal date + (k - weekday date) + 6) mod 7 = k.
Proof.
  intros Hk. unfold weekday.
  pose proof (Z.div_mod (toordinal date + 6) 7 ltac:(lia)) as Hdm.
  symmetry. apply (Z.mod_unique _ _ ((toordinal date + 6) / 7)); lia.
Qed.

Lemma weekday_bounds (date : datetime) : 0 <= weekday date <= 6.
Proof.
  unfold weekday.
  pose proof (Z.mod_pos_bound (toordinal date + 6) 7 ltac:(lia)). lia.
Qed.

Lemma monday_in_calendar (date : datetime) :
  1 <= toordinal date -> 1 <= toordinal date - weekday date.
Proof.
  intros H. unfold weekday.
  pose proof (Z.div_mod (toordinal date + 6) 7 ltac:(lia)) as Hdm.
  pose proof (Z.mod_pos_bound (toordinal date + 6) 7 ltac:(lia)) as Hb.
  lia.
Qed.

(** X1: [find_day_of_week] moves a date to the given weekday of its own
    week (Monday to Sunday) and keeps the time of day: the result has the
    requested weekday, the same Monday, and is at most six days away.  It
    never falls before the first day of the calendar; it raises
    [OverflowError] exactly when the requested day lies after 9999-12-31,
    which cannot happen for Monday to Friday. *)
Theorem X1_find_day_of_week_same_week (date : datetime) (k : Z) :
  datetime_valid date -> 0 <= k <= 6 ->
  let target := toordinal date + (k - weekday date) in
  1 <= target
  /\ (target <= MAXORDINAL ->
      let d := mk_datetime target (time_of date) in
      find_day_of_week date k = ret d
      /\ weekday d = k
      /\ toordinal d - weekday d = toordinal date - weekday date
      /\ -6 <= toordinal d - toordinal date <= 6
      /\ datetime_valid d)
  /\ (MAXORDINAL < target -> find_day_of_week date k = raise OverflowError)
  /\ (k <= 4 -> target <= MAXORDINAL).
Proof.
  intros Hv Hk target.
  pose proof (weekday_bounds date) as Hw.
  pose proof (monday_in_calendar date (proj1 (proj1 Hv))) as Hmon.
  assert (Hcases := datetime_add_days_cases date (k - weekday date) Hv).
  fold target in Hcases.
  split; [subst target; lia|]. split; [|split].
  - intros Hle d.
    assert (Hwd : weekday d = k).
    { unfold weekday, d, target. cbn [toordinal]. now apply weekday_shift. }
    split.
    + unfold find_day_of_week, lift, ret. rewrite Hcases.
      replace ((0 <? target) && (target <=? MAXORDINAL)) with true;
        [reflexivity|].
      symmetry. apply andb_true_iff.
      split; [apply Z.ltb_lt | apply Z.leb_le]; subst target; lia.
    + split; [exact Hwd|]. rewrite Hwd. subst d target. cbn [toordinal].
      split; [lia|]. split; [lia|].
      split; [cbn [toordinal]; lia | exact (proj2 Hv)].
  - intros Hgt. unfold find_day_of_week, lift, raise. rewrite Hcases.
    replace ((0 <? target) && (target <=? MAXORDINAL)) with false;
      [reflexivity|].
    symmetry. apply andb_false_iff. right. apply Z.leb_gt. exact Hgt.
  - intros Hk4. subst target. destruct Hv as [Hord _].
    unfold weekday, MAXORDINAL in *.
    pose proof (Z.div_mod (toordinal date + 6) 7 ltac:(lia)) as Hdm.
    pose proof (Z.mod_pos_bound (toordinal date + 6) 7 ltac:(lia)) as Hb.
    lia.
Qed.

(** X2: for every valid date the week view collects the activities of five
    dates, in this order: the Monday to the Friday of the week of the date,
    five consecutive days with the time of day of the date; no date
    computation fails.  The date itself is one of them when it is a
    weekday; on a Saturday or Sunday all five lie before it (the week that
    has just ended is shown). *)
Theorem X2_week_view_collects_monday_to_friday (date : datetime)
    (courses : list Course) (selected_activities : Selection) :
  datetime_valid date ->
  week_activities Selection activities_on date courses selected_activities
  = ret (concat (map (fun d => activities_on courses d selected_activities)
                   (week_dates date)))
  /\ map weekday (week_dates date) = [0; 1; 2; 3; 4]
  /\ map toordinal (week_dates date)
     = map (fun k => toordinal date - weekday date + k) [0; 1; 2; 3; 4]
  /\ Forall (fun d => time_of d = time_of date /\ datetime_valid d)
       (week_dates date)
  /\ (weekday date <= 4 -> In date (week_dates date))
  /\ (5 <= weekday date ->
      Forall (fun d => toordinal d < toordinal date) (week_dates date)).
Proof.
  intros Hv.
  pose proof (weekday_bounds date) as Hw.
  pose proof (monday_in_calendar date (proj1 (proj1 Hv))) as Hmon.
  split; [apply week_activities_valid; exact Hv|].
  unfold week_dates. cbn [map toordinal].
  split.
  { unfold weekday at 1 3 5 7 9. cbn [toordinal].
    rewrite !weekday_shift by lia. reflexivity. }
  split; [repeat (f_equal; try lia)|].
  split.
  { assert (Hfri : toordinal date + (4 - weekday date) <= MAXORDINAL).
    { destruct Hv as [Hord _]. unfold weekday, MAXORDINAL in *.
      pose proof (Z.div_mod (toordinal date + 6) 7 ltac:(lia)) as Hdm.
      pose proof (Z.mod_pos_bound (toordinal date + 6) 7 ltac:(lia)) as Hb.
      lia. }
    assert (Hone : forall k, 0 <= k <= 4 ->
               let d := mk_datetime (toordinal date + (k - weekday date))
                          (time_of date) in
               time_of d = time_of date /\ datetime_valid d).
    { intros k Hk d. subst d. split; [reflexivity|].
      split; [cbn [toordinal]; lia | exact (proj2 Hv)]. }
    repeat (apply List.Forall_cons; [apply Hone; lia|]).
    apply List.Forall_nil. }
  split.
  - intros Hwd. destruct date as [o t]. cbn [toordinal time_of] in *.
    set (w := weekday (mk_datetime o t)) in *.
    assert (w = 0 \/ w = 1 \/ w = 2 \/ w = 3 \/ w = 4) as Hcase by lia.
    destruct Hcase as [H|[H|[H|[H|H]]]]; rewrite H;
      [left | right; left | do 2 right; left | do 3 right; left
       | do 4 right; left];
      f_equal; lia.
  - intros Hwd.
    repeat (apply List.Forall_cons; [cbn [toordinal]; lia|]).
    apply List.Forall_nil.
Qed.

(** *** The cells of the week grid *)

Lemma dd_lookup_append (m : cells) (k key : Z * time) (x : string) :
  dd_lookup (dd_append m k x) key
  = if decide (k = key) then dd_lookup m k ++ [x] else dd_lookup m key.
Proof.
  unfold dd_append, dd_lookup at 1.
  destruct (decide (k = key)) as [<-|Hne].
  - rewrite lookup_insert_eq. reflexivity.
  - rewrite lookup_insert_ne by exact Hne. reflexivity.
Qed.

Lemma filter_eqb_absent (l : list Z) (c : Z) :
  ~ In c l -> List.filter (fun k => k =? c) l = [].
Proof.
  induction l as [|x l IH]; intros Hnot; [reflexivity|]. cbn [List.filter].
  destruct (Z.eqb_spec x c) as [->|_].
  - exfalso. apply Hnot. left; reflexivity.
  - apply IH. intros H. apply Hnot. right; exact H.
Qed.

Lemma filter_eqb_present (l : list Z) (c : Z) :
  List.NoDup l -> In c l -> List.filter (fun k => k =? c) l = [c].
Proof.
  induction l as [|x l IH]; intros Hnd Hin; [contradiction|].
  inversion Hnd as [|? ? Hx Hnd']; subst. cbn [List.filter].
  destruct (Z.eqb_spec x c) as [->|Hne].
  - now rewrite (filter_eqb_absent l c Hx).
  - destruct Hin as [->|Hin]; [contradiction | now apply IH].
Qed.

Lemma filter_range_eqb (n c : Z) :
  List.filter (fun k => k =? c) (range n)
  = if (0 <=? c) && (c <? n) then [c] else [].
Proof.
  destruct ((0 <=? c) && (c <? n)) eqn:Hc.
  - apply andb_true_iff in Hc. destruct Hc as [H0 Hn].
    apply Z.leb_le in H0. apply Z.ltb_lt in Hn.
    apply filter_eqb_present; [apply NoDup_ListNoDup, NoDup_seqZ|].
    apply In_range. lia.
  - apply filter_eqb_absent. rewrite In_range. intros [H0 Hn].
    apply andb_false_iff in Hc.
    destruct Hc as [Hc|Hc]; [apply Z.leb_gt in Hc | apply Z.ltb_ge in Hc];
      lia.
Qed.

Lemma fill_hours_lookup (date : datetime) (dy sh : Z) (text : string)
    (ks : list Z) (m : cells) (d h : Z) :
  dd_lookup
    (fold_left
       (fun m k => dd_append m (dy, hour_slot date (sh + k)) text) ks m)
    (d, hour_slot date h)
  = dd_lookup m (d, hour_slot date h)
    ++ map (fun _ => text)
         (List.filter (fun k => (dy =? d) && (k =? h - sh)) ks).
Proof.
  revert m. induction ks as [|k ks IH]; intros m.
  - cbn [fold_left List.filter map]. now rewrite app_nil_r.
  - cbn [fold_left List.filter]. rewrite IH, dd_lookup_append.
    destruct (decide ((dy, hour_slot date (sh + k)) = (d, hour_slot date h)))
      as [Heq|Hne].
    + injection Heq as Hd Hh. subst dy.
      assert (k = h - sh) as Hk by lia.
      rewrite Z.eqb_refl. replace (k =? h - sh) with true
        by (symmetry; apply Z.eqb_eq; exact Hk).
      cbn [andb map].
      replace (sh + k) with h by lia.
      now rewrite <- app_assoc.
    + replace ((dy =? d) && (k =? h - sh)) with false; [reflexivity|].
      symmetry. apply andb_false_iff.
      destruct (Z.eqb_spec dy d) as [->|]; [|left; reflexivity].
      right. apply Z.eqb_neq. intros Hk. apply Hne.
      f_equal. f_equal. lia.
Qed.

Lemma fill_activity_lookup (date : datetime) (m : cells)
    (ca : Course * Activity) (d h : Z) :
  dd_lookup (fill_activity date m ca) (d, hour_slot date h)
  = dd_lookup m (d, hour_slot date h)
    ++ (if covers d h ca then [cell_text ca] else []).
Proof.
  unfold fill_activity. rewrite fill_hours_lookup. f_equal.
  unfold covers.
  destruct (Z.eqb_spec (day (snd ca)) d) as [Hd|Hd]; cbn [andb].
  - rewrite filter_range_eqb.
    replace ((0 <=? h - hour (start (snd ca)))
             && (h - hour (start (snd ca))
                 <? hour (end_ (snd ca)) - hour (start (snd ca))))
      with ((hour (start (snd ca)) <=? h) && (h <? hour (end_ (snd ca)))).
    + destruct ((hour (start (snd ca)) <=? h) && (h <? hour (end_ (snd ca))));
        reflexivity.
    + f_equal.
      * destruct (Z.leb_spec (hour (start (snd ca))) h);
          symmetry; [apply Z.leb_le | apply Z.leb_gt]; lia.
      * destruct (Z.ltb_spec h (hour (end_ (snd ca))));
          symmetry; [apply Z.ltb_lt | apply Z.ltb_ge]; lia.
  - induction (range _) as [|k ks IH]; [reflexivity | exact IH].
Qed.

Lemma fill_activities_fold_lookup (date : datetime)
    (day_activities : list (Course * Activity)) (m : cells) (d h : Z) :
  dd_lookup (fold_left (fill_activity date) day_activities m)
    (d, hour_slot date h)
  = dd_lookup m (d, hour_slot date h) ++ cell_entries d h day_activities.
Proof.
  revert m. induction day_activities as [|ca rest IH]; intros m.
  - unfold cell_entries. cbn [fold_left List.filter map].
    now rewrite app_nil_r.
  - cbn [fold_left]. rewrite IH, fill_activity_lookup.
    unfold cell_entries. cbn [List.filter].
    destruct (covers d h ca); cbn [map]; rewrite <- app_assoc; reflexivity.
Qed.

Lemma fill_activities_lookup (date : datetime)
    (day_activities : list (Course * Activity)) (d h : Z) :
  dd_lookup (fill_activities date day_activities) (d, hour_slot date h)
  = cell_entries d h day_activities.
Proof.
  unfold fill_activities. rewrite fill_activities_fold_lookup.
  reflexivity.
Qed.

Lemma ret_inj {A} (a b : A) : ret a = ret b -> a = b.
Proof. unfold ret. intros H. now inversion H. Qed.

(** X3: the table of the week view.  For a valid date and a week whose
    latest end is on the hour, the view draws one table and prints its
    frame: the header row of the five weekdays, then one row per hour from
    the hour of the earliest start up to, and not including, the hour of
    the latest end; a row starts with its hour as HH:00 and its cell for a
    weekday holds, joined by line breaks and in the order of the week's
    activities, "<title> <name>" of every activity of that weekday whose
    start hour is at most the row's hour and whose end hour is beyond
    it. *)
Theorem X3_week_table_cells (config_dict : Config) (date : datetime)
    (courses : list Course) (selected_activities : Selection)
    (first last_ : Course * Activity) :
  let day_activities := week_union' date courses selected_activities in
  datetime_valid date ->
  (forall ca, In ca day_activities ->
              time_valid (start (snd ca)) /\ time_valid (end_ (snd ca))) ->
  py_min_by (fun act => start (snd act)) day_activities = ret first ->
  py_max_by (fun act => end_ (snd act)) day_activities = ret last_ ->
  minute (end_ (snd last_)) = 0 -> second (end_ (snd last_)) = 0 ->
  print_week_timetable' config_dict date courses selected_activities
  = ([DrawTable 0 0
        (week_table day_activities (hour (start (snd first)))
           (hour (end_ (snd last_))));
      PrintFrame], inr tt).
Proof.
  intros day_activities Hv Hall Hmin Hmax Hm Hs.
  rewrite (print_week_timetable_on_the_hour config_dict date courses
             selected_activities first last_ Hv Hall Hmin Hmax)
    by (rewrite Hm, Hs; lia).
  fold day_activities. unfold week_table. do 4 f_equal.
  apply map_ext. intros h. unfold grid_row. f_equal.
  apply map_ext. intros d. now rewrite fill_activities_lookup.
Qed.

(** With the earliest start and the latest end taken over a list of
    activities, every clock hour that one of them covers lies between the
    hour of the earliest start and the hour of the latest end. *)
Lemma covered_hours_within_range
    (day_activities : list (Course * Activity))
    (first last_ ca : Course * Activity) (d h : Z) :
  py_min_by (fun act => start (snd act)) day_activities = ret first ->
  py_max_by (fun act => end_ (snd act)) day_activities = ret last_ ->
  In ca day_activities ->
  covers d h ca = true ->
  hour (start (snd first)) <= h < hour (end_ (snd last_))
  /\ In h (seqZ (hour (start (snd first)))
             (hour (end_ (snd last_)) - hour (start (snd first))))
  /\ In (cell_text ca) (cell_entries d h day_activities).
Proof.
  intros Hmin Hmax Hin Hcov.
  assert (Hne : day_activities <> []) by (intros ->; contradiction).
  destruct (py_min_by_spec (fun act => start (snd act)) day_activities Hne)
    as (first' & Hmin' & _ & Hle).
  destruct (py_max_by_spec (fun act => end_ (snd act)) day_activities Hne)
    as (last' & Hmax' & _ & Hge).
  rewrite Hmin in Hmin'. apply ret_inj in Hmin'. subst first'.
  rewrite Hmax in Hmax'. apply ret_inj in Hmax'. subst last'.
  pose proof (Hle ca Hin) as H1. pose proof (Hge ca Hin) as H2.
  apply time_ltb_ge in H1. apply time_ltb_ge in H2.
  unfold covers in Hcov.
  apply andb_true_iff in Hcov. destruct Hcov as [Hcov Hh2].
  apply andb_true_iff in Hcov. destruct Hcov as [Hd Hh1].
  apply Z.leb_le in Hh1. apply Z.ltb_lt in Hh2.
  assert (Hrange : hour (start (snd first)) <= h < hour (end_ (snd last_))).
  { unfold time_lt in *. lia. }
  split; [exact Hrange|]. split.
  - apply list_elem_of_In, elem_of_seqZ. lia.
  - unfold cell_entries. apply in_map. apply filter_In. split; [exact Hin|].
    unfold covers. rewrite Hd.
    apply andb_true_iff. split; [apply andb_true_iff; split|];
      [reflexivity | apply Z.leb_le | apply Z.ltb_lt]; lia.
Qed.

(** X5: the rounding of the latest end never succeeds.  It returns an end
    time on the hour as it is and raises [TypeError] for any other; so for
    a valid date, whenever the latest end of the week has a minute or
    second component, the week view prints its header and stops with
    [TypeError] without drawing. *)
Theorem X5_week_view_stops_on_partial_hour
    (config_dict : Config) (courses : list Course)
    (selected_activities : Selection) (args : Args) (now : datetime)
    (last_ : Course * Activity) :
  let date := date_of_args args now in
  (forall t, round_up_latest t = ret t \/ round_up_latest t = raise TypeError)
  /\ (datetime_valid date ->
      py_max_by (fun act => end_ (snd act))
        (week_union' date courses selected_activities) = ret last_ ->
      minute (end_ (snd last_)) + second (end_ (snd last_)) > 0 ->
      show_week' config_dict courses selected_activities args now
      = ([Print (week_header date)], inl TypeError)).
Proof.
  intros date. split.
  - intros t.
    destruct (Z_le_gt_dec (minute t + second t) 0) as [H|H].
    + left. now apply round_up_latest_on_the_hour.
    + right. now apply round_up_latest_raises.
  - intros Hv Hmax Hround. unfold show_week, print. rewrite bind_emit.
    fold date.
    rewrite (print_week_timetable_round_up_raises config_dict date courses
               selected_activities last_ Hv Hmax Hround).
    reflexivity.
Qed.

(** *** When the view fails *)

(** X6: when the view of a run raises (the course list being loaded),
    [main] stops with the same exception after the output the view had
    produced, and the course list is not written: the data file is left as
    it was. *)
Theorem X6_failed_view_leaves_cache_unwritten
    (arguments : Args) (data : option (list Course)) (config_dict : Config)
    (now : datetime) (callback : Callback Config Selection) (e : exn)
    (courses : list Course) :
  let selected_activities := get_selected_activities config_dict courses in
  let view := callback config_dict courses selected_activities arguments now in
  load_courses' arguments data config_dict = ret courses ->
  find_callback' arguments = ret callback ->
  outcome view = inl e ->
  main' arguments data config_dict now = (trace view, inl e)
  /\ dumps (trace (main' arguments data config_dict now)) = 0%nat.
Proof.
  intros selected_activities view Hload Hfind Hfail.
  assert (Hquiet : quiet view).
  { destruct (find_callback_cases arguments callback Hfind) as [->|[->| ->]].
    - apply quiet_show_week.
    - apply quiet_show_timetable.
    - apply quiet_show_next. }
  assert (Hmain : main' arguments data config_dict now = (trace view, inl e)).
  { unfold main. rewrite Hload, bind_ret. fold selected_activities.
    rewrite Hfind, bind_ret. fold view.
    rewrite (M_eta view), Hfail. reflexivity. }
  split; [exact Hmain|]. rewrite Hmain. exact Hquiet.
Qed.

(** *** Nothing is lost in the timeline *)

Lemma od_set_append_perm (mapping : list (string * list string))
    (k x : string) :
  Permutation
    (concat (map snd (od_set mapping k (od_get mapping k [] ++ [x]))))
    (concat (map snd mapping) ++ [x]).
Proof.
  induction mapping as [|[k0 w] rest IH]; cbn [od_set od_get].
  - reflexivity.
  - destruct (String.eqb k0 k); cbn [map snd concat].
    + rewrite <- !app_assoc. apply Permutation_app_head.
      apply Permutation_app_comm.
    + rewrite <- app_assoc. apply Permutation_app_head. exact IH.
Qed.

Lemma bin_activities_perm (mapping : list (string * list string))
    (resolved : list (Course * Activity * Location)) :
  Permutation (concat (map snd (bin_activities mapping resolved)))
    (concat (map snd mapping) ++ map block_of resolved).
Proof.
  revert mapping. induction resolved as [|[[c a] l] rest IH]; intros mapping.
  - cbn [bin_activities map]. now rewrite app_nil_r.
  - cbn [bin_activities map]. rewrite IH, od_set_append_perm.
    rewrite <- app_assoc. reflexivity.
Qed.

Lemma bin_activities_nonempty_buckets (mapping : list (string * list string))
    (resolved : list (Course * Activity * Location)) :
  Forall (fun kb => snd kb <> []) mapping ->
  Forall (fun kb => snd kb <> []) (bin_activities mapping resolved).
Proof.
  revert mapping. induction resolved as [|[[c a] l] rest IH]; intros mapping H.
  - exact H.
  - cbn [bin_activities]. apply IH.
    generalize (activity_text c a l) as x, (strftime_HM (start a)) as k.
    intros x k. clear IH.
    induction H as [|[k0 w] m Hw Hm IHm]; cbn [od_set od_get].
    + apply List.Forall_cons; [discriminate | apply List.Forall_nil].
    + destruct (String.eqb k0 k).
      * apply List.Forall_cons; [|exact Hm].
        cbn [snd]. intros Heq. now apply app_eq_nil in Heq as [_ ?].
      * apply List.Forall_cons; [exact Hw | exact IHm].
Qed.

(** X7: the binning of the timeline loses and repeats nothing: the text
    blocks held by the buckets of the mapping are, up to order, exactly the
    blocks of the activities of the batch, one per activity; no bucket is
    empty and there are at most as many buckets as activities. *)
Theorem X7_timeline_buckets_hold_every_block_once (date : datetime)
    (activities : list (Course * Activity)) :
  let resolved := resolve_locations location_valid_for date activities in
  let mapping := bin_activities [] resolved in
  Permutation (concat (map snd mapping)) (map block_of resolved)
  /\ length (concat (map snd mapping)) = length activities
  /\ Forall (fun kb => snd kb <> []) mapping
  /\ (length mapping <= length activities)%nat.
Proof.
  intros resolved mapping.
  assert (Hperm : Permutation (concat (map snd mapping)) (map block_of resolved)).
  { subst mapping. rewrite bin_activities_perm. reflexivity. }
  assert (Hlen : length (concat (map snd mapping)) = length activities).
  { rewrite (Permutation_length Hperm). subst resolved.
    unfold resolve_locations. now rewrite !length_map. }
  assert (Hne : Forall (fun kb => snd kb <> []) mapping).
  { apply bin_activities_nonempty_buckets. apply List.Forall_nil. }
  repeat split; [exact Hperm | exact Hlen | exact Hne |].
  rewrite <- Hlen. clear Hperm Hlen.
  induction Hne as [|[k b] m Hb Hm IH]; cbn [map snd concat length].
  - lia.
  - rewrite length_app. destruct b as [|x b]; [contradiction|].
    cbn [length snd] in *. lia.
Qed.

(** *** The day view, by mode *)

(** X8: on a day without activities the day view prints its header and
    nothing else, in either mode.  With [--timeline] and at least one
    activity it prints the header, draws one timeline and prints its
    frame: no activity line is printed in that mode. *)
Theorem X8_day_view_by_mode
    (config_dict : Config) (courses : list Course)
    (selected_activities : Selection) (args : Args) (now : datetime) :
  let date := date_of_args args now in
  let activities := activities_on courses date selected_activities in
  (activities = [] ->
   show_timetable' config_dict courses selected_activities args now
   = ([Print (day_header date)], inr tt))
  /\ (arg_timeline args = true -> activities <> [] ->
      exists box_width,
        show_timetable' config_dict courses selected_activities args now
        = ([Print (day_header date);
            DrawTimeline 0 0 box_width 25
              (bin_activities []
                 (resolve_locations location_valid_for date activities));
            PrintFrame], inr tt)).
Proof.
  intros date activities. split.
  - intros Hempty. unfold show_timetable, print. rewrite bind_emit.
    fold date. fold activities. rewrite Hempty.
    destruct (arg_timeline args); reflexivity.
  - intros Htl Hne. unfold show_timetable, print. rewrite bind_emit.
    fold date. fold activities. rewrite Htl.
    destruct (print_timeline_nonempty config_dict date activities Hne)
      as (longest & Heq & _).
    exists (longest * 4). rewrite Heq. reflexivity.
Qed.

(** *** The next-activity view *)

(** X9: without [--time], when an upcoming activity is found the
    next-activity view prints exactly one line, and it is a line of the
    day view: the list-mode day view for the same moment (no [--on])
    prints that very line. *)
Theorem X9_next_prints_a_day_view_line
    (config_dict : Config) (courses : list Course)
    (selected_activities : Selection) (args args' : Args) (now : datetime)
    (course : Course) (act : Activity) :
  arg_time args = false ->
  next_activity (activities_on courses now selected_activities) now
  = Some (course, act) ->
  arg_on args' = None -> arg_timeline args' = false ->
  show_next' config_dict courses selected_activities args now
  = ([Print (activity_line' config_dict now course act)], inr tt)
  /\ In (Print (activity_line' config_dict now course act))
       (trace (show_timetable' config_dict courses selected_activities
                 args' now)).
Proof.
  intros Htime Hnext Hon Htl. split.
  - unfold show_next. rewrite Hnext, Htime. reflexivity.
  - unfold show_timetable, date_of_args. rewrite Hon, Htl.
    unfold print. rewrite bind_emit, print_activities_trace.
    cbn [trace fst]. right.
    unfold next_activity in Hnext. apply find_some in Hnext.
    destruct Hnext as [Hin _].
    change (Print (activity_line' config_dict now course act))
      with ((fun ca => Print (activity_line' config_dict now (fst ca) (snd ca)))
              (course, act)).
    apply in_map. exact Hin.
Qed.

Lemma timedelta_str_minutes (m : Z) :
  0 <= m < 1440 ->
  timedelta_str (mk_timedelta (m * 60000000))
  = dec (m / 60) +:+ ":" +:+ pad2 (m mod 60) +:+ ":" +:+ pad2 0.
Proof.
  intros Hm. unfold timedelta_str, td_seconds_of, td_days_of,
    td_microseconds_of. cbn [total_microseconds].
  assert (H1 : m * 60000000 / (86400 * 1000000) = 0).
  { symmetry. apply (Z.div_unique _ _ _ (m * 60000000)); lia. }
  assert (H2 : (m * 60000000 / 1000000) mod 86400 = m * 60).
  { assert (m * 60000000 / 1000000 = m * 60) as ->.
    { symmetry. apply (Z.div_unique _ _ _ 0); lia. }
    symmetry. apply (Z.mod_unique _ _ 0); lia. }
  assert (H3 : m * 60000000 mod 1000000 = 0).
  { symmetry. apply (Z.mod_unique _ _ (m * 60)); lia. }
  rewrite H1, H2, H3.
  assert (H4 : m * 60 / 60 = m).
  { symmetry. apply (Z.div_unique _ _ _ 0); lia. }
  assert (H5 : (m * 60) mod 60 = 0).
  { symmetry. apply (Z.mod_unique _ _ m); lia. }
  rewrite H4, H5. reflexivity.
Qed.

(** X10: the countdown of [--time] is never negative and stays below a
    day.  For a valid [now] and start time, when an upcoming activity is
    found the view prints H:MM:00, the whole minutes from the hour and
    minute of [now] to those of the start, between 0 and 1439; it is
    0:00:00 when the activity starts later within the current minute. *)
Theorem X10_countdown_is_whole_minutes_within_a_day
    (config_dict : Config) (courses : list Course)
    (selected_activities : Selection) (args : Args) (now : datetime)
    (course : Course) (act : Activity) :
  datetime_valid now -> time_valid (start act) ->
  arg_time args = true ->
  next_activity (activities_on courses now selected_activities) now
  = Some (course, act) ->
  let m := minutes_until now act in
  0 <= m < 1440
  /\ total_microseconds (time_to_next now act) = m * 60000000
  /\ show_next' config_dict courses selected_activities args now
     = ([Print (dec (m / 60) +:+ ":" +:+ pad2 (m mod 60) +:+ ":" +:+ pad2 0)],
        inr tt).
Proof.
  intros [_ Hn] Hs Htime Hnext m.
  assert (Hlater : time_lt (time_of now) (start act)).
  { unfold next_activity in Hnext. apply find_some in Hnext.
    destruct Hnext as [_ H]. apply time_ltb_lt. exact H. }
  assert (Hm : 0 <= m < 1440).
  { subst m. unfold minutes_until, time_lt, time_valid in *. lia. }
  assert (Heq : time_to_next now act = mk_timedelta (m * 60000000)).
  { rewrite time_to_next_minutes. subst m. unfold minutes_until.
    f_equal. lia. }
  split; [exact Hm|]. split; [now rewrite Heq|].
  unfold show_next. rewrite Hnext, Htime, Heq.
  rewrite (timedelta_str_minutes m Hm). reflexivity.
Qed.

(** X11: on a list ordered by start time, as the activity selector
    returns it, the activity found is the earliest upcoming one: no
    activity that starts after the time of [now] starts before it. *)
Theorem X11_next_is_earliest_upcoming
    (activities : list (Course * Activity)) (now : datetime)
    (p q : Course * Activity) :
  StronglySorted starts_no_later activities ->
  next_activity activities now = Some p ->
  In q activities ->
  time_ltb (time_of now) (start (snd q)) = true ->
  time_ltb (start (snd q)) (start (snd p)) = false.
Proof.
  intros Hsorted Hnext Hq Hlater.
  pose proof (find_first
                (fun '(course, activity) =>
                   time_gtb (start activity) (time_of now)) activities) as H.
  unfold next_activity in Hnext. rewrite Hnext in H.
  destruct H as (before & after & Heq & _ & Hbefore). subst activities.
  apply in_app_or in Hq. destruct Hq as [Hq|[<-|Hq]].
  - rewrite List.Forall_forall in Hbefore. specialize (Hbefore q Hq).
    destruct q as [c a]. unfold time_gtb in Hbefore. cbn [snd] in Hlater.
    congruence.
  - apply time_ltb_irrefl.
  - clear Hbefore Hnext. induction before as [|x before IH].
    + apply StronglySorted_inv in Hsorted. destruct Hsorted as [_ Hall].
      rewrite List.Forall_forall in Hall. exact (Hall q Hq).
    + apply StronglySorted_inv in Hsorted. destruct Hsorted as [Hs _].
      exact (IH Hs).
Qed.

(** *** Runs that always complete *)

Lemma show_timetable_completes (config_dict : Config) (courses : list Course)
    (selected_activities : Selection) (args : Args) (now : datetime) :
  outcome (show_timetable' config_dict courses selected_activities args now)
  = inr tt.
Proof.
  unfold show_timetable, print. rewrite bind_emit. cbn [outcome snd].
  destruct (arg_timeline args).
  - set (date := date_of_args args now).
    destruct (activities_on courses date selected_activities) as [|p rest] eqn:Ha.
    + reflexivity.
    + destruct (print_timeline_nonempty config_dict date (p :: rest)
                  ltac:(discriminate)) as (longest & Heq & _).
      rewrite Heq. reflexivity.
  - rewrite print_activities_trace. reflexivity.
Qed.

Lemma show_next_completes (config_dict : Config) (courses : list Course)
    (selected_activities : Selection) (args : Args) (now : datetime) :
  outcome (show_next' config_dict courses selected_activities args now)
  = inr tt.
Proof.
  unfold show_next.
  destruct (next_activity _ now) as [[course act]|]; [|reflexivity].
  destruct (arg_time args); reflexivity.
Qed.

Lemma fetch_all_trace (courses : list Course) :
  trace (fetch_all fetch_activities courses) = [].
Proof.
  unfold fetch_all.
  induction courses as [|c rest IH]; [reflexivity|]. cbn [map_M].
  destruct (fetch_activities c) as [e|c']; [reflexivity|].
  rewrite bind_lift_inr.
  destruct (map_M _ rest) as [t [e|cs]]; cbn [trace fst] in IH; subst t;
    reflexivity.
Qed.

Lemma fetch_all_fails (courses : list Course) (c : Course) (e : exn) :
  In c courses -> fetch_activities c = inl e ->
  exists e', fetch_all fetch_activities courses = raise e'.
Proof.
  unfold fetch_all. intros Hin Hc.
  induction courses as [|c0 rest IH]; [contradiction|]. cbn [map_M].
  destruct (fetch_activities c0) as [e0|c0'] eqn:H0.
  - exists e0. reflexivity.
  - destruct Hin as [->|Hin]; [congruence|].
    destruct (IH Hin) as (e' & He'). exists e'.
    rewrite bind_lift_inr, He'. reflexivity.
Qed.

Lemma load_courses_trace (arguments : Args) (data : option (list Course))
    (config_dict : Config) :
  trace (load_courses' arguments data config_dict) = [].
Proof.
  unfold load_courses.
  destruct data as [cached|]; [destruct (arg_drop_cache arguments)|];
    try apply fetch_all_trace; reflexivity.
Qed.

(** X13: what decides whether a run of [show] or [next] writes the course
    list.  With a data file and without [--drop-cache] nothing is fetched
    and the cached list is used, whatever the data source would answer.
    Otherwise every configured course is fetched first, and a course whose
    fetch fails stops the run with an exception before any output and
    without writing.  Once the course list is loaded, the day view and the
    next-activity view never fail, whatever the courses, the date and the
    mode: the run ends normally and writes the course list exactly once,
    as its last action. *)
Theorem X13_show_and_next_write_once_loaded
    (arguments : Args) (data : option (list Course)) (config_dict : Config)
    (now : datetime) :
  (forall cached,
     data = Some cached -> arg_drop_cache arguments = false ->
     load_courses' arguments data config_dict = ret cached)
  /\ (forall c e,
        data = None \/ arg_drop_cache arguments = true ->
        In c (get_courses config_dict) -> fetch_activities c = inl e ->
        exists e', main' arguments data config_dict now = ([], inl e'))
  /\ (forall courses,
        load_courses' arguments data config_dict = ret courses ->
        arg_week arguments = false ->
        arg_show arguments = true \/ arg_next arguments = true ->
        outcome (main' arguments data config_dict now) = inr tt
        /\ dumps (trace (main' arguments data config_dict now)) = 1%nat
        /\ exists before,
             trace (main' arguments data config_dict now)
             = before ++ [PickleDump courses]).
Proof.
  split; [|split].
  - intros cached -> Hdrop. unfold load_courses. now rewrite Hdrop.
  - intros c e Hfetch Hin Hc.
    destruct (fetch_all_fails (get_courses config_dict) c e Hin Hc)
      as (e' & He').
    exists e'. unfold main.
    assert (load_courses' arguments data config_dict = raise e') as ->.
    { unfold load_courses. destruct Hfetch as [->|Hdrop].
      - exact He'.
      - rewrite Hdrop. destruct data; exact He'. }
    reflexivity.
  - intros courses Hload Hweek Hcmd.
    set (selected_activities := get_selected_activities config_dict courses).
    assert (exists callback,
               find_callback' arguments = ret callback
               /\ outcome (callback config_dict courses selected_activities
                             arguments now) = inr tt
               /\ quiet (callback config_dict courses selected_activities
                           arguments now))
      as (callback & Hfind & Hdone & Hquiet).
    { unfold find_callback, COMMAND_MAP. cbn [List.find].
      change (arg_command arguments "week") with (arg_week arguments).
      change (arg_command arguments "show") with (arg_show arguments).
      change (arg_command arguments "next") with (arg_next arguments).
      rewrite Hweek. destruct (arg_show arguments) eqn:Hshow.
      - eexists. split; [reflexivity|].
        split; [apply show_timetable_completes | apply quiet_show_timetable].
      - destruct Hcmd as [Hc|Hc]; [discriminate|]. rewrite Hc.
        eexists. split; [reflexivity|].
        split; [apply show_next_completes | apply quiet_show_next]. }
    set (view := callback config_dict courses selected_activities arguments
                   now) in *.
    assert (Hmain : main' arguments data config_dict now
                    = (trace view ++ [PickleDump courses], inr tt)).
    { unfold main. rewrite Hload, bind_ret. fold selected_activities.
      rewrite Hfind, bind_ret. fold view.
      rewrite (M_eta view), Hdone, bind_value. reflexivity. }
    rewrite Hmain. cbn [outcome trace fst snd].
    split; [reflexivity|]. split.
    + rewrite dumps_app, Hquiet. reflexivity.
    + exists (trace view). reflexivity.
Qed.

(** *** The rows an activity occupies *)

Lemma filter_all_false {A} (f : A -> bool) (l : list A) :
  (forall x, In x l -> f x = false) -> List.filter f l = [].
Proof.
  induction l as [|x l IH]; intros H; [reflexivity|]. cbn [List.filter].
  rewrite (H x) by (left; reflexivity).
  apply IH. intros y Hy. apply H. right; exact Hy.
Qed.

Lemma filter_all_true {A} (f : A -> bool) (l : list A) :
  (forall x, In x l -> f x = true) -> List.filter f l = l.
Proof.
  induction l as [|x l IH]; intros H; [reflexivity|]. cbn [List.filter].
  rewrite (H x) by (left; reflexivity). f_equal.
  apply IH. intros y Hy. apply H. right; exact Hy.
Qed.

Lemma In_seqZ (k m n : Z) : In k (seqZ m n) <-> m <= k < m + n.
Proof. rewrite <- list_elem_of_In. apply elem_of_seqZ. Qed.

Lemma filter_interval_seqZ (a b e n : Z) :
  e <= a -> b <= e + n -> 0 <= n ->
  List.filter (fun h => (a <=? h) && (h <? b)) (seqZ e n) = seqZ a (b - a).
Proof.
  intros Hea Hbn Hn. destruct (Z_le_gt_dec b a) as [Hba|Hab].
  - rewrite (seqZ_nil a) by lia. apply filter_all_false.
    intros h _. apply andb_false_iff.
    destruct (Z.leb_spec a h); [right; apply Z.ltb_ge; lia | left; reflexivity].
  - replace n with ((a - e) + ((b - a) + (e + n - b))) by lia.
    rewrite seqZ_app by lia. rewrite (seqZ_app (e + (a - e))) by lia.
    replace (e + (a - e)) with a by lia.
    replace (a + (b - a)) with b by lia.
    rewrite !List.filter_app.
    rewrite (filter_all_false _ (seqZ e (a - e))).
    + rewrite (filter_all_true _ (seqZ a (b - a))).
      * rewrite (filter_all_false _ (seqZ b (e + n - b))).
        -- now rewrite app_nil_r.
        -- intros h Hh. apply In_seqZ in Hh. apply andb_false_iff. right.
           apply Z.ltb_ge. lia.
      * intros h Hh. apply In_seqZ in Hh. apply andb_true_iff.
        split; [apply Z.leb_le | apply Z.ltb_lt]; lia.
    + intros h Hh. apply In_seqZ in Hh. apply andb_false_iff. left.
      apply Z.leb_gt. lia.
Qed.

(** Among the hours from the hour of the earliest start to the hour of the
    latest end, those an activity covers on its weekday are the hours from
    its start hour up to, and not including, its end hour. *)
Lemma covered_hours_of_activity
    (day_activities : list (Course * Activity))
    (first last_ ca : Course * Activity) :
  py_min_by (fun act => start (snd act)) day_activities = ret first ->
  py_max_by (fun act => end_ (snd act)) day_activities = ret last_ ->
  In ca day_activities ->
  List.filter (fun h => covers (day (snd ca)) h ca)
    (seqZ (hour (start (snd first)))
       (hour (end_ (snd last_)) - hour (start (snd first))))
  = seqZ (hour (start (snd ca)))
      (hour (end_ (snd ca)) - hour (start (snd ca))).
Proof.
  intros Hmin Hmax Hin.
  assert (Hne : day_activities <> []) by (intros ->; contradiction).
  destruct (py_min_by_spec (fun act => start (snd act)) day_activities Hne)
    as (first' & Hmin' & _ & Hle).
  destruct (py_max_by_spec (fun act => end_ (snd act)) day_activities Hne)
    as (last' & Hmax' & _ & Hge).
  rewrite Hmin in Hmin'. apply ret_inj in Hmin'. subst first'.
  rewrite Hmax in Hmax'. apply ret_inj in Hmax'. subst last'.
  pose proof (Hle ca Hin) as H1. pose proof (Hge ca Hin) as H2.
  apply time_ltb_ge in H1. apply time_ltb_ge in H2.
  assert (He : hour (start (snd first)) <= hour (start (snd ca)))
    by (unfold time_lt in H1; lia).
  assert (Hl : hour (end_ (snd ca)) <= hour (end_ (snd last_)))
    by (unfold time_lt in H2; lia).
  set (e := hour (start (snd first))) in *.
  set (l := hour (end_ (snd last_))) in *.
  set (a := hour (start (snd ca))) in *.
  set (b := hour (end_ (snd ca))) in *.
  assert (Hext : forall h,
             covers (day (snd ca)) h ca = (a <=? h) && (h <? b)).
  { intros h. unfold covers. now rewrite Z.eqb_refl. }
  rewrite (List.filter_ext _ _ Hext).
  destruct (Z_le_gt_dec b a) as [Hba|Hab].
  - rewrite (seqZ_nil a) by lia. apply filter_all_false.
    intros h _. apply andb_false_iff.
    destruct (Z.leb_spec a h); [right; apply Z.ltb_ge; lia | left; reflexivity].
  - apply filter_interval_seqZ; lia.
Qed.

(** *** The activities in the drawn table *)

(** The table drawn for a week whose latest end is on the hour, by
    rows. *)
Lemma week_table_drawn (config_dict : Config) (date : datetime)
    (courses : list Course) (selected_activities : Selection)
    (first last_ : Course * Activity) :
  let day_activities := week_union' date courses selected_activities in
  datetime_valid date ->
  (forall ca, In ca day_activities ->
              time_valid (start (snd ca)) /\ time_valid (end_ (snd ca))) ->
  py_min_by (fun act => start (snd act)) day_activities = ret first ->
  py_max_by (fun act => end_ (snd act)) day_activities = ret last_ ->
  minute (end_ (snd last_)) = 0 -> second (end_ (snd last_)) = 0 ->
  print_week_timetable' config_dict date courses selected_activities
  = ([DrawTable 0 0
        ([""; "Monday"; "Tuesday"; "Wednesday"; "Thursday"; "Friday"]
         :: map (week_row day_activities)
              (seqZ (hour (start (snd first)))
                 (hour (end_ (snd last_)) - hour (start (snd first)))));
      PrintFrame], inr tt).
Proof.
  intros day_activities Hv Hall Hmin Hmax Hm Hs.
  rewrite (print_week_timetable_on_the_hour config_dict date courses
             selected_activities first last_ Hv Hall Hmin Hmax)
    by (rewrite Hm, Hs; lia).
  fold day_activities. do 4 f_equal.
  apply map_ext. intros h. unfold grid_row, week_row. f_equal.
  apply map_ext. intros d. now rewrite fill_activities_lookup.
Qed.

(** X4: no activity hour falls outside the drawn table.  For a valid date
    and a week whose latest end is on the hour, the table the week grid
    builder draws has, for every activity of the week on a weekday column
    and every clock hour the activity covers (start hour <= h < end hour),
    the row of that hour; the cell of the activity's weekday in that row is
    the texts of the cell joined by line breaks, and the activity's text
    is one of them. *)
Theorem X4_covered_hours_are_rows (config_dict : Config) (date : datetime)
    (courses : list Course) (selected_activities : Selection)
    (first last_ ca : Course * Activity) (d h : Z) :
  let day_activities := week_union' date courses selected_activities in
  datetime_valid date ->
  (forall ca, In ca day_activities ->
              time_valid (start (snd ca)) /\ time_valid (end_ (snd ca))) ->
  py_min_by (fun act => start (snd act)) day_activities = ret first ->
  py_max_by (fun act => end_ (snd act)) day_activities = ret last_ ->
  minute (end_ (snd last_)) = 0 -> second (end_ (snd last_)) = 0 ->
  In ca day_activities -> covers d h ca = true -> 0 <= d <= 4 ->
  exists table,
    print_week_timetable' config_dict date courses selected_activities
    = ([DrawTable 0 0 table; PrintFrame], inr tt)
    /\ In (week_row day_activities h) table
    /\ nth (Z.to_nat (1 + d)) (week_row day_activities h) ""
       = join nl (cell_entries d h day_activities)
    /\ In (cell_text ca) (cell_entries d h day_activities).
Proof.
  intros day_activities Hv Hall Hmin Hmax Hm Hs Hin Hcov Hd.
  destruct (covered_hours_within_range day_activities first last_ ca d h
              Hmin Hmax Hin Hcov) as (_ & Hrow & Hcell).
  eexists. split; [|split; [|split]].
  - exact (week_table_drawn config_dict date courses selected_activities
             first last_ Hv Hall Hmin Hmax Hm Hs).
  - right. apply in_map. exact Hrow.
  - assert (d = 0 \/ d = 1 \/ d = 2 \/ d = 3 \/ d = 4) as Hcase by lia.
    destruct Hcase as [->|[->|[->|[->| ->]]]]; reflexivity.
  - exact Hcell.
Qed.

(** X14: the rows an activity occupies in the drawn table.  For a valid
    date and a week whose latest end is on the hour, the hours of the rows
    the week grid builder draws at which an activity of the week covers
    its weekday's cell are exactly the consecutive hours from its start
    hour up to, and not including, its end hour: an activity over n clock
    hours occupies n rows, none of them cut off by the hour range. *)
Theorem X14_activity_occupies_its_hours (config_dict : Config)
    (date : datetime) (courses : list Course)
    (selected_activities : Selection) (first last_ ca : Course * Activity) :
  let day_activities := week_union' date courses selected_activities in
  datetime_valid date ->
  (forall ca, In ca day_activities ->
              time_valid (start (snd ca)) /\ time_valid (end_ (snd ca))) ->
  py_min_by (fun act => start (snd act)) day_activities = ret first ->
  py_max_by (fun act => end_ (snd act)) day_activities = ret last_ ->
  minute (end_ (snd last_)) = 0 -> second (end_ (snd last_)) = 0 ->
  In ca day_activities ->
  exists hours,
    print_week_timetable' config_dict date courses selected_activities
    = ([DrawTable 0 0
          ([""; "Monday"; "Tuesday"; "Wednesday"; "Thursday"; "Friday"]
           :: map (week_row day_activities) hours);
        PrintFrame], inr tt)
    /\ List.filter (fun h => covers (day (snd ca)) h ca) hours
       = seqZ (hour (start (snd ca)))
           (hour (end_ (snd ca)) - hour (start (snd ca)))
    /\ forall h,
         hour (start (snd ca)) <= h < hour (end_ (snd ca)) ->
         In h hours
         /\ In (cell_text ca) (cell_entries (day (snd ca)) h day_activities).
Proof.
  intros day_activities Hv Hall Hmin Hmax Hm Hs Hin.
  eexists. split; [|split].
  - exact (week_table_drawn config_dict date courses selected_activities
             first last_ Hv Hall Hmin Hmax Hm Hs).
  - exact (covered_hours_of_activity day_activities first last_ ca
             Hmin Hmax Hin).
  - intros h Hh.
    assert (Hcov : covers (day (snd ca)) h ca = true).
    { unfold covers. rewrite Z.eqb_refl.
      apply andb_true_iff. split; [|apply Z.ltb_lt; lia].
      apply Z.leb_le. lia. }
    destruct (covered_hours_within_range day_activities first last_ ca
                (day (snd ca)) h Hmin Hmax Hin Hcov) as (_ & Hrow & Hcell).
    split; [exact Hrow | exact Hcell].
Qed.

End Properties.

(** ** The program on concrete timetables *)

Import Data.

Lemma monday_valid : datetime_valid monday.
Proof. unfold datetime_valid, time_valid, MAXORDINAL; simpl; lia. Qed.

Lemma tuesday_valid : datetime_valid tuesday.
Proof. unfold datetime_valid, time_valid, MAXORDINAL; simpl; lia. Qed.

(** The day view of the spec's end-to-end example: one course "CS101" with
    one Monday activity 09:00-10:00 in room "A1". *)
Example day_view_CS101 :
  run_show [CS101] (show_on monday false) monday
  = ([Print "Showing timetable for Monday, 2026-11-02";
      Print ("09:00 - 10:00 :: " +:+ green +:+ "CS101" +:+ Collab.RESET
             +:+ " Lecture @ A1")],
     inr tt).
Proof. vm_compute. reflexivity. Qed.

(** The week view of the same example: the Monday cell of the 09:00 row
    holds the activity, the other cells of the row are empty. *)
Example week_view_CS101 :
  run_week [CS101] (week_on monday) monday
  = ([Print "Showing timetable for week 44 of 2026";
      DrawTable 0 0
        [[""; "Monday"; "Tuesday"; "Wednesday"; "Thursday"; "Friday"];
         ["09:00"; "CS101 Lecture"; ""; ""; ""; ""]];
      PrintFrame],
     inr tt).
Proof. vm_compute. reflexivity. Qed.

(** Activities 09:00-10:30 and 13:00-14:00: the latest end, 14:00, is on
    the hour and the rows run from 09:00 to 13:00. *)
Example week_view_MATH102 :
  run_week [MATH102] (week_on tuesday) monday
  = ([Print "Showing timetable for week 44 of 2026";
      DrawTable 0 0
        [[""; "Monday"; "Tuesday"; "Wednesday"; "Thursday"; "Friday"];
         ["09:00"; "MATH102 Tutorial"; ""; ""; ""; ""];
         ["10:00"; ""; ""; ""; ""; ""];
         ["11:00"; ""; ""; ""; ""; ""];
         ["12:00"; ""; ""; ""; ""; ""];
         ["13:00"; ""; ""; "MATH102 Lab"; ""; ""]];
      PrintFrame],
     inr tt).
Proof. vm_compute. reflexivity. Qed.

(** The short activity 08:10-08:50 opens the 08:00 row and fills no
    cell. *)
Example week_view_CS102 :
  run_week [CS102] (week_on tuesday) monday
  = ([Print "Showing timetable for week 44 of 2026";
      DrawTable 0 0
        [[""; "Monday"; "Tuesday"; "Wednesday"; "Thursday"; "Friday"];
         ["08:00"; ""; ""; ""; ""; ""];
         ["09:00"; "CS102 Lecture"; ""; ""; ""; ""]];
      PrintFrame],
     inr tt).
Proof. vm_compute. reflexivity. Qed.

(** C1: a week whose only activity runs 09:00-10:30 (Monday).  The latest
    end, 10:30, has a minute component, so the grid builder goes on to
    round it up to 11:00; the addition [latest_time + timedelta(hours=1)]
    is on a [datetime.time] and raises [TypeError]: after the header the
    run stops, no hour row is built and nothing is drawn. *)
Theorem C1_week_grid_round_up_raises :
  Collab.activities_on [MATH103] monday [] = [(MATH103, tutorial)]
  /\ end_ tutorial = mk_time 10 30 0 0
  /\ round_up_latest (end_ tutorial) = ([], inl TypeError)
  /\ run_week [MATH103] (week_on monday) monday
     = ([Print "Showing timetable for week 44 of 2026"], inl TypeError).
Proof. vm_compute. repeat split. Qed.

(** The general form of the failure, at the same week. *)
Example week_round_up_raises_MATH103 :
  print_week_timetable Collab.Config Collab.Selection Collab.activities_on
    (cfg [MATH103]) monday [MATH103] []
  = ([], inl TypeError).
Proof.
  apply (print_week_timetable_round_up_raises Collab.Config Collab.Selection
           Collab.activities_on (cfg [MATH103]) monday [MATH103] []
           (MATH103, tutorial) monday_valid).
  - vm_compute. reflexivity.
  - vm_compute. reflexivity.
Qed.

(** The general form of the grid, at the week of [week_view_MATH102]. *)
Example week_on_the_hour_MATH102 :
  print_week_timetable Collab.Config Collab.Selection Collab.activities_on
    (cfg [MATH102]) tuesday [MATH102] []
  = ([DrawTable 0 0
        ([""; "Monday"; "Tuesday"; "Wednesday"; "Thursday"; "Friday"]
         :: map (grid_row tuesday
                   (fill_activities tuesday
                      [(MATH102, tutorial); (MATH102, lab)]))
              [9; 10; 11; 12; 13]);
      PrintFrame], inr tt).
Proof.
  apply (print_week_timetable_on_the_hour Collab.Config Collab.Selection
           Collab.activities_on (cfg [MATH102]) tuesday [MATH102] []
           (MATH102, tutorial) (MATH102, lab) tuesday_valid).
  - intros ca Hin. vm_compute in Hin.
    destruct Hin as [<-|[<-|[]]];
      unfold time_valid; simpl; lia.
  - vm_compute. reflexivity.
  - vm_compute. reflexivity.
  - vm_compute. discriminate.
Qed.

(** C2, the claim as stated, fails: the block of the lecture of CS101 has
    five lines, not four. *)
Lemma C2_block_is_not_four_lines :
  let block :=
    activity_text CS101 lecture (Collab.location_valid_for lecture monday) in
  trace (run_show [CS101] (show_on monday true) monday)
  = [Print "Showing timetable for Monday, 2026-11-02";
     DrawTimeline 0 0 28 25 [("09:00", [block])];
     PrintFrame]
  /\ lines block = ["CS101"; ""; "Lecture"; "A1"; "10:00"]
  /\ length (lines block) <> 4%nat.
Proof. vm_compute. repeat split. discriminate. Qed.

Lemma C2_witness :
  In (CS101, lecture) [(CS101, lecture)]
  /\ lines (activity_text CS101 lecture
              (Collab.location_valid_for lecture monday))
     = ["CS101"; ""; "Lecture"; "A1"; "10:00"]
  /\ length (lines (activity_text CS101 lecture
                      (Collab.location_valid_for lecture monday))) = 5%nat.
Proof.
  assert (Hin : In (CS101, lecture) [(CS101, lecture)])
    by (left; reflexivity).
  split; [exact Hin|].
  pose proof (C2_timeline_block_has_five_lines Collab.Config
                Collab.location_valid_for (cfg [CS101]) monday
                [(CS101, lecture)] CS101 lecture Hin) as (_ & _ & H).
  apply H.
  - vm_compute. repeat split; discriminate.
  - vm_compute. repeat split; discriminate.
  - vm_compute. repeat split; discriminate.
  - unfold time_valid; simpl; lia.
Defined.

(** C3, the claim as stated, fails: at 10:00:30.000005 the next activity
    starts at 14:00; the time remaining to 14:00 today is 3:59:29.999995,
    the view prints 4:00:00. *)
Lemma C3_printed_delta_is_not_time_remaining :
  next_activity (Collab.activities_on [CS103] half_past_ten_sharp [])
    half_past_ten_sharp = Some (CS103, seminar)
  /\ run_next [CS103] (next_args true) half_past_ten_sharp
     = ([Print "4:00:00"], inr tt)
  /\ timedelta_str (Spec.time_remaining half_past_ten_sharp seminar)
     = "3:59:29.999995"
  /\ run_next [CS103] (next_args true) half_past_ten_sharp
     <> ([Print (timedelta_str
                   (Spec.time_remaining half_past_ten_sharp seminar))],
         inr tt).
Proof. vm_compute. repeat split. discriminate. Qed.

Lemma C3_witness :
  arg_time (next_args true) = true
  /\ next_activity (Collab.activities_on [CS103] half_past_ten_sharp [])
       half_past_ten_sharp = Some (CS103, seminar)
  /\ run_next [CS103] (next_args true) half_past_ten_sharp
     = ([Print "4:00:00"], inr tt).
Proof.
  assert (H1 : arg_time (next_args true) = true) by reflexivity.
  assert (H2 : next_activity
                 (Collab.activities_on [CS103] half_past_ten_sharp [])
                 half_past_ten_sharp = Some (CS103, seminar))
    by (vm_compute; reflexivity).
  split; [exact H1|]. split; [exact H2|].
  pose proof (C3_time_mode_prints_hour_minute_delta Collab.Config
                Collab.Selection Collab.activities_on
                Collab.location_valid_for Collab.colour_of_course Collab.RESET
                (cfg [CS103]) [CS103] [] (next_args true) half_past_ten_sharp
                CS103 seminar H1 H2) as (H & _).
  unfold run_next. rewrite H. vm_compute. reflexivity.
Defined.

Example next_activity_at_ten :
  Collab.activities_on [CS103] ten_o_clock []
  = [(CS103, lecture); (CS103, seminar)]
  /\ next_activity (Collab.activities_on [CS103] ten_o_clock []) ten_o_clock
     = Some (CS103, seminar).
Proof. vm_compute. split; reflexivity. Qed.

Lemma C4_witness :
  next_activity (Collab.activities_on [CS103] three_pm []) three_pm = None
  /\ run_next [CS103] (next_args false) three_pm = ([], inr tt).
Proof.
  assert (H : next_activity (Collab.activities_on [CS103] three_pm [])
                three_pm = None) by (vm_compute; reflexivity).
  split; [exact H|].
  exact (proj2 (C4_next_activity_first_strictly_later Collab.Config
                  Collab.Selection Collab.activities_on
                  Collab.location_valid_for Collab.colour_of_course
                  Collab.RESET
                  (Collab.activities_on [CS103] three_pm []) three_pm)
           (cfg [CS103]) [CS103] [] (next_args false) eq_refl H).
Defined.

Lemma C5_witness :
  [(GEOG, geog_lab)] <> []
  /\ exists longest mapping,
       print_timeline Collab.Config Collab.location_valid_for (cfg [GEOG])
         monday [(GEOG, geog_lab)]
       = ([DrawTimeline 0 0 (4 * longest) 25 mapping; PrintFrame], inr tt)
       /\ (exists s, In s ["GEOG"; "Lab"; rehua] /\ len s = longest)
       /\ (forall s, In s ["GEOG"; "Lab"; rehua] -> len s <= longest).
Proof.
  assert (H : [(GEOG, geog_lab)] <> []) by discriminate.
  split; [exact H|].
  exact (proj1 (C5_timeline_box_width Collab.Config Collab.location_valid_for
                  (cfg [GEOG]) monday [(GEOG, geog_lab)]) H).
Defined.

(** The place of the example has five characters in six bytes, and is the
    longest label: the box is 20 wide. *)
Example timeline_GEOG :
  len rehua = 5 /\ String.length rehua = 6%nat
  /\ trace (print_timeline Collab.Config Collab.location_valid_for
              (cfg [GEOG]) monday [(GEOG, geog_lab)])
     = [DrawTimeline 0 0 20 25
          [("11:00", [activity_text GEOG geog_lab (room rehua)])];
        PrintFrame].
Proof. vm_compute. repeat split. Qed.

(** The box of the example is 28 wide: 4 times the 7 characters of
    "Lecture". *)
Example timeline_CS101 :
  print_timeline Collab.Config Collab.location_valid_for (cfg [CS101])
    monday [(CS101, lecture)]
  = ([DrawTimeline 0 0 28 25
        [("09:00", ["CS101" +:+ nl +:+ nl +:+ "Lecture" +:+ nl +:+ "A1"
                    +:+ nl +:+ "10:00"])];
      PrintFrame], inr tt).
Proof. vm_compute. reflexivity. Qed.

Lemma C6_witness :
  arg_timeline (show_on monday false) = false
  /\ run_show [CS101] (show_on monday false) monday
     = ([Print "Showing timetable for Monday, 2026-11-02";
         Print ("09:00 - 10:00 :: " +:+ green +:+ "CS101" +:+ Collab.RESET
                +:+ " Lecture @ A1")],
        inr tt).
Proof.
  assert (H : arg_timeline (show_on monday false) = false) by reflexivity.
  split; [exact H|].
  pose proof (C6_day_view_one_line_per_activity Collab.Config
                Collab.Selection Collab.activities_on
                Collab.location_valid_for Collab.colour_of_course Collab.RESET
                (cfg [CS101]) [CS101] [] (show_on monday false) monday H)
    as [Heq _].
  unfold run_show. rewrite Heq. vm_compute. reflexivity.
Defined.

Lemma C7_witness :
  find_callback Collab.Config Collab.Selection Collab.activities_on
    Collab.location_valid_for Collab.colour_of_course Collab.RESET
    (next_args true)
  = ret (show_next Collab.Config Collab.Selection Collab.activities_on
           Collab.location_valid_for Collab.colour_of_course Collab.RESET)
  /\ completes (run_next [CS103] (next_args true) ten_o_clock)
  /\ run_main [CS103] (Some [CS103]) (next_args true) ten_o_clock
     = ([Print "4:00:00"; PickleDump [CS103]], inr tt)
  /\ dumps (trace (run_main [CS103] (Some [CS103]) (next_args true)
                     ten_o_clock)) = 1%nat.
Proof.
  assert (H1 : find_callback Collab.Config Collab.Selection
                 Collab.activities_on Collab.location_valid_for
                 Collab.colour_of_course Collab.RESET (next_args true)
               = ret (show_next Collab.Config Collab.Selection
                        Collab.activities_on Collab.location_valid_for
                        Collab.colour_of_course Collab.RESET))
    by reflexivity.
  assert (H2 : completes (run_next [CS103] (next_args true) ten_o_clock))
    by (exists tt; vm_compute; reflexivity).
  split; [exact H1|]. split; [exact H2|].
  pose proof (C7_cache_rewritten_once_after_view Collab.Config
                Collab.Selection Collab.activities_on
                Collab.location_valid_for Collab.colour_of_course Collab.RESET
                Collab.get_courses Collab.fetch_activities
                Collab.get_selected_activities
                (next_args true) (Some [CS103]) (cfg [CS103]) ten_o_clock
                _ [CS103] eq_refl H1 H2) as (Hmain & Hone & _).
  split; [|exact Hone].
  unfold run_main. rewrite Hmain. vm_compute. reflexivity.
Defined.

Lemma C8_witness :
  hour (end_ briefing) = hour (start briefing)
  /\ datetime_valid tuesday
  /\ week_union Collab.Selection Collab.activities_on tuesday [CS102] []
     = [(CS102, lecture); (CS102, briefing)]
  /\ render_activities tuesday [(CS102, lecture); (CS102, briefing)]
     = render_activities tuesday [(CS102, lecture)]
  /\ print_week_timetable Collab.Config Collab.Selection Collab.activities_on
       (cfg [CS102]) tuesday [CS102] []
     = ([DrawTable 0 0
           [[""; "Monday"; "Tuesday"; "Wednesday"; "Thursday"; "Friday"];
            ["08:00"; ""; ""; ""; ""; ""];
            ["09:00"; "CS102 Lecture"; ""; ""; ""; ""]];
         PrintFrame], inr tt).
Proof.
  assert (H : hour (end_ briefing) = hour (start briefing)) by reflexivity.
  assert (Hu : week_union Collab.Selection Collab.activities_on tuesday
                 [CS102] []
               = [(CS102, lecture)] ++ (CS102, briefing) :: [])
    by (vm_compute; reflexivity).
  assert (Hall : forall ca,
             In ca ([(CS102, lecture)] ++ (CS102, briefing) :: []) ->
             time_valid (start (snd ca)) /\ time_valid (end_ (snd ca))).
  { intros ca Hin. cbn [app] in Hin.
    destruct Hin as [<-|[<-|[]]]; unfold time_valid; simpl; lia. }
  split; [exact H|]. split; [exact tuesday_valid|]. split; [exact Hu|].
  destruct (C8_same_hour_activity_fills_no_cell Collab.Config
              Collab.Selection Collab.activities_on tuesday
              [(CS102, lecture)] [] CS102 briefing H)
    as (_ & Hcells & first & last_ & Hmin & Hmax & _ & _ & _ & _ & Hgrid).
  split; [exact Hcells|].
  assert (first = (CS102, briefing)) as ->
    by (symmetry; apply ret_inj; exact Hmin).
  assert (last_ = (CS102, lecture)) as ->
    by (symmetry; apply ret_inj; exact Hmax).
  destruct (Hgrid (cfg [CS102]) [CS102] [] tuesday_valid Hu Hall)
    as [Htable _].
  rewrite Htable by (vm_compute; discriminate).
  vm_compute. reflexivity.
Defined.

Lemma C9_witness :
  [(CS101, lecture); (CS103, seminar); (CS103, lecture)] <> []
  /\ exists box_width,
       print_timeline Collab.Config Collab.location_valid_for (cfg [CS101])
         monday [(CS101, lecture); (CS103, seminar); (CS103, lecture)]
       = ([DrawTimeline 0 0 box_width 25
             [("09:00",
               [activity_text CS101 lecture (room "A1");
                activity_text CS103 lecture (room "A1")]);
              ("14:00", [activity_text CS103 seminar (room "E5")])];
           PrintFrame], inr tt).
Proof.
  assert (H : [(CS101, lecture); (CS103, seminar); (CS103, lecture)] <> [])
    by discriminate.
  split; [exact H|].
  exact (proj2 (proj2 (proj2
           (C9_timeline_buckets_keep_input_order Collab.Config
              Collab.location_valid_for (cfg [CS101]) monday
              [(CS101, lecture); (CS103, seminar); (CS103, lecture)]))) H).
Defined.

Lemma C10_witness :
  datetime_valid tuesday
  /\ week_union Collab.Selection Collab.activities_on tuesday [] [] = []
  /\ run_week [] (week_on tuesday) monday
     = ([Print "Showing timetable for week 44 of 2026"], inr tt).
Proof.
  assert (H : week_union Collab.Selection Collab.activities_on tuesday [] []
              = []) by reflexivity.
  split; [exact tuesday_valid|]. split; [exact H|].
  pose proof (proj2 (C10_week_header_printed_for_empty_week Collab.Config
                       Collab.Selection Collab.activities_on
                       (cfg []) [] [] (week_on tuesday) monday)
                tuesday_valid H) as Heq.
  unfold run_week. rewrite Heq. vm_compute. reflexivity.
Defined.

(** Keys in first-seen order: a start time met again keeps its place. *)
Example first_seen_keys :
  Spec.first_seen [] ["09:00"; "14:00"; "09:00"; "11:00"; "14:00"]
  = ["09:00"; "14:00"; "11:00"].
Proof. reflexivity. Qed.

(** ** The further properties on concrete timetables *)

Lemma X1_witness :
  datetime_valid monday /\ 0 <= 4 <= 6
  /\ find_day_of_week monday 4 = ret friday
  /\ weekday friday = 4.
Proof.
  assert (Hk : 0 <= 4 <= 6) by lia.
  split; [exact monday_valid|]. split; [exact Hk|].
  pose proof (X1_find_day_of_week_same_week monday 4 monday_valid Hk)
    as (_ & H & _).
  assert (Hle : toordinal monday + (4 - weekday monday) <= MAXORDINAL)
    by (vm_compute; discriminate).
  destruct (H Hle) as (Hfind & Hwd & _).
  split; [exact Hfind | exact Hwd].
Defined.

Lemma X2_witness :
  datetime_valid tuesday
  /\ map toordinal (week_dates tuesday)
     = [739922; 739923; 739924; 739925; 739926]
  /\ In tuesday (week_dates tuesday).
Proof.
  split; [exact tuesday_valid|].
  pose proof (X2_week_view_collects_monday_to_friday Collab.Selection
                Collab.activities_on tuesday [] [] tuesday_valid)
    as (_ & _ & Hord & _ & Hin & _).
  split; [exact Hord|].
  apply Hin. vm_compute. discriminate.
Defined.

Lemma X3_witness :
  datetime_valid tuesday
  /\ py_min_by (fun act => start (snd act))
       (week_union Collab.Selection Collab.activities_on tuesday [MATH102] [])
     = ret (MATH102, tutorial)
  /\ py_max_by (fun act => end_ (snd act))
       (week_union Collab.Selection Collab.activities_on tuesday [MATH102] [])
     = ret (MATH102, lab)
  /\ print_week_timetable Collab.Config Collab.Selection Collab.activities_on
       (cfg [MATH102]) tuesday [MATH102] []
     = ([DrawTable 0 0
           [[""; "Monday"; "Tuesday"; "Wednesday"; "Thursday"; "Friday"];
            ["09:00"; "MATH102 Tutorial"; ""; ""; ""; ""];
            ["10:00"; ""; ""; ""; ""; ""];
            ["11:00"; ""; ""; ""; ""; ""];
            ["12:00"; ""; ""; ""; ""; ""];
            ["13:00"; ""; ""; "MATH102 Lab"; ""; ""]];
         PrintFrame], inr tt).
Proof.
  assert (Hmin : py_min_by (fun act => start (snd act))
                   (week_union Collab.Selection Collab.activities_on tuesday
                      [MATH102] [])
                 = ret (MATH102, tutorial)) by (vm_compute; reflexivity).
  assert (Hmax : py_max_by (fun act => end_ (snd act))
                   (week_union Collab.Selection Collab.activities_on tuesday
                      [MATH102] [])
                 = ret (MATH102, lab)) by (vm_compute; reflexivity).
  assert (Hall : forall ca,
             In ca (week_union Collab.Selection Collab.activities_on tuesday
                      [MATH102] []) ->
             time_valid (start (snd ca)) /\ time_valid (end_ (snd ca))).
  { intros ca Hin. vm_compute in Hin.
    destruct Hin as [<-|[<-|[]]]; unfold time_valid; simpl; lia. }
  split; [exact tuesday_valid|]. split; [exact Hmin|]. split; [exact Hmax|].
  rewrite (X3_week_table_cells Collab.Config Collab.Selection
             Collab.activities_on (cfg [MATH102]) tuesday [MATH102] []
             (MATH102, tutorial) (MATH102, lab) tuesday_valid Hall Hmin Hmax
             eq_refl eq_refl).
  vm_compute. reflexivity.
Defined.

Lemma X4_witness :
  datetime_valid tuesday
  /\ In (MATH102, lab)
       (week_union Collab.Selection Collab.activities_on tuesday [MATH102] [])
  /\ covers 2 13 (MATH102, lab) = true
  /\ exists table,
       print_week_timetable Collab.Config Collab.Selection
         Collab.activities_on (cfg [MATH102]) tuesday [MATH102] []
       = ([DrawTable 0 0 table; PrintFrame], inr tt)
       /\ In ["13:00"; ""; ""; "MATH102 Lab"; ""; ""] table
       /\ In "MATH102 Lab"
            (cell_entries 2 13 [(MATH102, tutorial); (MATH102, lab)]).
Proof.
  assert (Hin : In (MATH102, lab)
                  (week_union Collab.Selection Collab.activities_on tuesday
                     [MATH102] []))
    by (right; left; reflexivity).
  assert (Hcov : covers 2 13 (MATH102, lab) = true) by reflexivity.
  assert (Hall : forall ca,
             In ca (week_union Collab.Selection Collab.activities_on tuesday
                      [MATH102] []) ->
             time_valid (start (snd ca)) /\ time_valid (end_ (snd ca))).
  { intros ca H. vm_compute in H.
    destruct H as [<-|[<-|[]]]; unfold time_valid; simpl; lia. }
  split; [exact tuesday_valid|]. split; [exact Hin|]. split; [exact Hcov|].
  destruct (X4_covered_hours_are_rows Collab.Config Collab.Selection
              Collab.activities_on (cfg [MATH102]) tuesday [MATH102] []
              (MATH102, tutorial) (MATH102, lab) (MATH102, lab) 2 13
              tuesday_valid Hall eq_refl eq_refl eq_refl eq_refl Hin Hcov
              ltac:(lia))
    as (table & Hdraw & Hrow & _ & Hcell).
  exists table. split; [exact Hdraw|]. split; [exact Hrow | exact Hcell].
Defined.

Lemma X5_witness :
  datetime_valid monday
  /\ py_max_by (fun act => end_ (snd act))
       (week_union Collab.Selection Collab.activities_on monday [MATH103] [])
     = ret (MATH103, tutorial)
  /\ minute (end_ tutorial) + second (end_ tutorial) > 0
  /\ run_week [MATH103] (week_on monday) tuesday
     = ([Print "Showing timetable for week 44 of 2026"], inl TypeError).
Proof.
  assert (Hmax : py_max_by (fun act => end_ (snd act))
                   (week_union Collab.Selection Collab.activities_on monday
                      [MATH103] [])
                 = ret (MATH103, tutorial)) by (vm_compute; reflexivity).
  assert (Hround : minute (end_ tutorial) + second (end_ tutorial) > 0)
    by (vm_compute; reflexivity).
  split; [exact monday_valid|]. split; [exact Hmax|]. split; [exact Hround|].
  unfold run_week.
  rewrite (proj2 (X5_week_view_stops_on_partial_hour Collab.Config
                    Collab.Selection Collab.activities_on (cfg [MATH103])
                    [MATH103] [] (week_on monday) tuesday (MATH103, tutorial))
             monday_valid Hmax Hround).
  vm_compute. reflexivity.
Defined.

Lemma X6_witness :
  outcome (run_week [MATH103] (week_on monday) monday) = inl TypeError
  /\ run_main [MATH103] None (week_on monday) monday
     = ([Print "Showing timetable for week 44 of 2026"], inl TypeError)
  /\ dumps (trace (run_main [MATH103] None (week_on monday) monday)) = 0%nat.
Proof.
  assert (Hfail : outcome (run_week [MATH103] (week_on monday) monday)
                  = inl TypeError) by (vm_compute; reflexivity).
  split; [exact Hfail|].
  pose proof (X6_failed_view_leaves_cache_unwritten Collab.Config
                Collab.Selection Collab.activities_on
                Collab.location_valid_for Collab.colour_of_course Collab.RESET
                Collab.get_courses Collab.fetch_activities
                Collab.get_selected_activities
                (week_on monday) None (cfg [MATH103]) monday _ TypeError
                [MATH103] eq_refl eq_refl Hfail) as [Hmain Hdumps].
  split; [|exact Hdumps].
  unfold run_main. rewrite Hmain. vm_compute. reflexivity.
Defined.

Lemma X8_witness :
  Collab.activities_on [] monday [] = []
  /\ run_show [] (show_on monday true) tuesday
     = ([Print "Showing timetable for Monday, 2026-11-02"], inr tt).
Proof.
  assert (H : Collab.activities_on [] monday [] = []) by reflexivity.
  split; [exact H|].
  unfold run_show.
  rewrite (proj1 (X8_day_view_by_mode Collab.Config Collab.Selection
                    Collab.activities_on Collab.location_valid_for
                    Collab.colour_of_course Collab.RESET (cfg []) [] []
                    (show_on monday true) tuesday) H).
  vm_compute. reflexivity.
Defined.

Lemma X9_witness :
  arg_time (next_args false) = false
  /\ next_activity (Collab.activities_on [CS103] ten_o_clock []) ten_o_clock
     = Some (CS103, seminar)
  /\ run_next [CS103] (next_args false) ten_o_clock
     = ([Print ("14:00 - 15:00 :: CS103" +:+ Collab.RESET
                +:+ " Seminar @ E5")], inr tt)
  /\ In (Print ("14:00 - 15:00 :: CS103" +:+ Collab.RESET
                +:+ " Seminar @ E5"))
       (trace (run_show [CS103] show_now ten_o_clock)).
Proof.
  assert (H1 : arg_time (next_args false) = false) by reflexivity.
  assert (H2 : next_activity (Collab.activities_on [CS103] ten_o_clock [])
                 ten_o_clock = Some (CS103, seminar))
    by (vm_compute; reflexivity).
  split; [exact H1|]. split; [exact H2|].
  pose proof (X9_next_prints_a_day_view_line Collab.Config Collab.Selection
                Collab.activities_on Collab.location_valid_for
                Collab.colour_of_course Collab.RESET (cfg [CS103]) [CS103] []
                (next_args false) show_now ten_o_clock CS103 seminar
                H1 H2 eq_refl eq_refl) as [Hnext Hin].
  split.
  - unfold run_next. rewrite Hnext. vm_compute. reflexivity.
  - exact Hin.
Defined.

Lemma X10_witness :
  datetime_valid half_past_ten_sharp /\ time_valid (start seminar)
  /\ minutes_until half_past_ten_sharp seminar = 240
  /\ run_next [CS103] (next_args true) half_past_ten_sharp
     = ([Print "4:00:00"], inr tt).
Proof.
  assert (Hv : datetime_valid half_past_ten_sharp)
    by (unfold datetime_valid, time_valid, MAXORDINAL; simpl; lia).
  assert (Hs : time_valid (start seminar))
    by (unfold time_valid; simpl; lia).
  split; [exact Hv|]. split; [exact Hs|]. split; [reflexivity|].
  pose proof (X10_countdown_is_whole_minutes_within_a_day Collab.Config
                Collab.Selection Collab.activities_on
                Collab.location_valid_for Collab.colour_of_course Collab.RESET
                (cfg [CS103]) [CS103] [] (next_args true)
                half_past_ten_sharp CS103 seminar Hv Hs eq_refl eq_refl)
    as (_ & _ & Hprint).
  unfold run_next. rewrite Hprint. vm_compute. reflexivity.
Defined.

Lemma X11_witness :
  StronglySorted starts_no_later
    [(CS105, lecture); (CS105, seminar); (CS105, evening_class)]
  /\ next_activity
       [(CS105, lecture); (CS105, seminar); (CS105, evening_class)]
       ten_o_clock = Some (CS105, seminar)
  /\ time_ltb (start evening_class) (start seminar) = false.
Proof.
  assert (Hs : StronglySorted starts_no_later
                 [(CS105, lecture); (CS105, seminar); (CS105, evening_class)]).
  { repeat (constructor; try reflexivity). }
  assert (Hn : next_activity
                 [(CS105, lecture); (CS105, seminar); (CS105, evening_class)]
                 ten_o_clock = Some (CS105, seminar)) by reflexivity.
  split; [exact Hs|]. split; [exact Hn|].
  apply (X11_next_is_earliest_upcoming
           [(CS105, lecture); (CS105, seminar); (CS105, evening_class)]
           ten_o_clock (CS105, seminar) (CS105, evening_class) Hs Hn).
  - right; right; left; reflexivity.
  - reflexivity.
Defined.

Lemma X13_witness :
  arg_week (show_on monday true) = false
  /\ arg_show (show_on monday true) = true
  /\ outcome (run_main [CS101] None (show_on monday true) tuesday) = inr tt
  /\ dumps (trace (run_main [CS101] None (show_on monday true) tuesday))
     = 1%nat
  /\ run_main_unreachable [CS101] (Some [CS101]) (show_on monday true) tuesday
     = run_main [CS101] (Some [CS101]) (show_on monday true) tuesday
  /\ exists e,
       run_main_unreachable [CS101] None (show_on monday true) tuesday
       = ([], inl e).
Proof.
  split; [reflexivity|]. split; [reflexivity|].
  pose proof (X13_show_and_next_write_once_loaded Collab.Config
                Collab.Selection Collab.activities_on
                Collab.location_valid_for Collab.colour_of_course Collab.RESET
                Collab.get_courses Collab.fetch_activities
                Collab.get_selected_activities
                (show_on monday true) None (cfg [CS101]) tuesday)
    as (_ & _ & H).
  destruct (H [CS101] eq_refl eq_refl (or_introl eq_refl))
    as (Hdone & Hone & _).
  split; [exact Hdone|]. split; [exact Hone|]. split; [reflexivity|].
  pose proof (X13_show_and_next_write_once_loaded Collab.Config
                Collab.Selection Collab.activities_on
                Collab.location_valid_for Collab.colour_of_course Collab.RESET
                Collab.get_courses Collab.fetch_unreachable
                Collab.get_selected_activities
                (show_on monday true) None (cfg [CS101]) tuesday)
    as (_ & Hfail & _).
  exact (Hfail CS101 (Exception "ConnectionError") (or_introl eq_refl)
           (or_introl eq_refl) eq_refl).
Defined.

Lemma X14_witness :
  datetime_valid tuesday
  /\ In (CS104, workshop)
       (week_union Collab.Selection Collab.activities_on tuesday [CS104] [])
  /\ exists hours,
       print_week_timetable Collab.Config Collab.Selection
         Collab.activities_on (cfg [CS104]) tuesday [CS104] []
       = ([DrawTable 0 0
             ([""; "Monday"; "Tuesday"; "Wednesday"; "Thursday"; "Friday"]
              :: map (week_row [(CS104, lecture); (CS104, workshop)]) hours);
           PrintFrame], inr tt)
       /\ List.filter (fun h => covers 2 h (CS104, workshop)) hours
          = [10; 11].
Proof.
  assert (Hin : In (CS104, workshop)
                  (week_union Collab.Selection Collab.activities_on tuesday
                     [CS104] []))
    by (right; left; reflexivity).
  assert (Hall : forall ca,
             In ca (week_union Collab.Selection Collab.activities_on tuesday
                      [CS104] []) ->
             time_valid (start (snd ca)) /\ time_valid (end_ (snd ca))).
  { intros ca H. vm_compute in H.
    destruct H as [<-|[<-|[]]]; unfold time_valid; simpl; lia. }
  split; [exact tuesday_valid|]. split; [exact Hin|].
  destruct (X14_activity_occupies_its_hours Collab.Config Collab.Selection
              Collab.activities_on (cfg [CS104]) tuesday [CS104] []
              (CS104, lecture) (CS104, workshop) (CS104, workshop)
              tuesday_valid Hall eq_refl eq_refl eq_refl eq_refl Hin)
    as (hours & Hdraw & Hfilter & _).
  exists hours. split; [exact Hdraw | exact Hfilter].
Defined.
